(** * MunicipalMCP: the tool gateway of [municode-mcp-server.py]

    A shallow embedding of [MunicodeClient] and of [handle_call_tool],
    the dispatcher that turns a tool name and an argument dictionary into
    remote calls and one text block.

    - Python values that travel through the dispatcher (tool arguments and
      decoded JSON bodies) are the inductive [pyval].
    - [str] is [string], a character being a code point below 256: ASCII
      and the Latin-1 letters and signs. [lower] is [str.lower] on such
      text, and [upper] is [str.upper] with its one lengthening case, the
      sharp s that becomes SS. Two letters below 256 have their capital
      beyond 255, the micro sign (181) and the y with diaeresis (255); no
      [string] holds those capitals, [upper] leaves the two letters as they
      are, and text with them is where [upper] stops following Python.
    - The [arguments] dictionary is a [gmap string pyval].
    - Awaited HTTP requests are the [Call] nodes of a small free monad
      [prog]; [run] plays a program against a remote service and records
      the requests it issues, in order. *)

From Stdlib Require Import Ascii NArith ZArith.
From stdpp Require Import base strings gmap list pretty.

Set Warnings "-register-all".
Local Open Scope Z_scope.

(** ** Strings *)

Module Str.

(** The small letters whose capital sits 32 places below them: a to z, and
    in Latin-1 the letters from 224 to 254 without the division sign. *)
Definition is_lower (c : ascii) : bool :=
  let n := N_of_ascii c in
  (97 <=? n)%N && (n <=? 122)%N
  || (224 <=? n)%N && (n <=? 254)%N && negb (n =? 247)%N.

(** The capitals: A to Z, and in Latin-1 the letters from 192 to 222 without
    the multiplication sign. *)
Definition is_upper (c : ascii) : bool :=
  let n := N_of_ascii c in
  (65 <=? n)%N && (n <=? 90)%N
  || (192 <=? n)%N && (n <=? 222)%N && negb (n =? 215)%N.

(** What [upper] makes of one character: the capital of a small letter, SS
    of the sharp s (223), the character itself otherwise. The micro sign
    (181) and the y with diaeresis (255) are among the others: their
    capitals are code points beyond 255. *)
Definition upper_char (c : ascii) : string :=
  if is_lower c then String (ascii_of_N (N_of_ascii c - 32)) EmptyString
  else if (N_of_ascii c =? 223)%N then "SS"
  else String c EmptyString.

Definition lower_char (c : ascii) : ascii :=
  if is_upper c then ascii_of_N (N_of_ascii c + 32) else c.

Fixpoint map (f : ascii → ascii) (s : string) : string :=
  match s with
  | EmptyString => EmptyString
  | String c s' => String (f c) (map f s')
  end.

(** [s.upper()] and [s.lower()] *)
Fixpoint upper (s : string) : string :=
  match s with
  | EmptyString => EmptyString
  | String c s' => upper_char c +:+ upper s'
  end.

Definition lower : string → string := map lower_char.

(** [s.isascii()] *)
Fixpoint isascii (s : string) : bool :=
  match s with
  | EmptyString => true
  | String c s' => (N_of_ascii c <? 128)%N && isascii s'
  end.

(** [s.startswith(p)] *)
Fixpoint startswith (p s : string) : bool :=
  match p, s with
  | EmptyString, _ => true
  | String a p', String b s' => bool_decide (a = b) && startswith p' s'
  | String _ _, EmptyString => false
  end.

(** [sub in s] *)
Fixpoint contains (sub s : string) : bool :=
  startswith sub s ||
  match s with
  | EmptyString => false
  | String _ s' => contains sub s'
  end.

(** [s.replace(old, new)] for a non-empty [old]: occurrences are taken
    from the left and do not overlap; [skip] counts the characters of an
    occurrence that are still to be dropped. *)
Fixpoint replace_from (skip : nat) (old new s : string) : string :=
  match s with
  | EmptyString => EmptyString
  | String c s' =>
      match skip with
      | S k => replace_from k old new s'
      | O =>
          if startswith old s
          then new +:+ replace_from (String.length old - 1) old new s'
          else String c (replace_from O old new s')
      end
  end.

Definition replace (old new s : string) : string := replace_from O old new s.

(** [sep.join(parts)] *)
Fixpoint join (sep : string) (parts : list string) : string :=
  match parts with
  | [] => ""
  | [p] => p
  | p :: rest => p +:+ sep +:+ join sep rest
  end.

(** the one-character strings a [for] loop over a [str] yields *)
Fixpoint chars (s : string) : list string :=
  match s with
  | EmptyString => []
  | String c s' => String c EmptyString :: chars s'
  end.

Definition hex_digit (n : N) : ascii :=
  if (n <? 10)%N then ascii_of_N (48 + n) else ascii_of_N (87 + n).

(** two lower-case hexadecimal digits of a character code *)
Definition hex2 (c : ascii) : string :=
  let n := N_of_ascii c in
  String (hex_digit (n / 16)) (String (hex_digit (n mod 16)) EmptyString).

(** [' ' * n] *)
Fixpoint spaces (n : nat) : string :=
  match n with
  | O => ""
  | S k => String " " (spaces k)
  end.

End Str.

(** ** Python values *)

(** A [float] is kept as the two things the gateway can observe of it: its
    truth value and its [repr]. *)
Record pyfloat := { float_nonzero : bool; float_repr : string }.

Inductive pyval :=
| PNone
| PBool (b : bool)
| PInt (z : Z)
| PFloat (f : pyfloat)
| PStr (s : string)
| PList (l : list pyval)
| PDict (d : list (string * pyval)).

(** A [dict] is the list of its items in insertion order; its keys are
    distinct, and a lookup takes the first binding of the key. *)
Fixpoint assoc {A} (k : string) (d : list (string * A)) : option A :=
  match d with
  | [] => None
  | (k', v) :: rest => if bool_decide (k' = k) then Some v else assoc k rest
  end.

(** [bool(v)] *)
Definition truthy (v : pyval) : bool :=
  match v with
  | PNone => false
  | PBool b => b
  | PInt z => negb (z =? 0)
  | PFloat f => float_nonzero f
  | PStr s => match s with EmptyString => false | _ => true end
  | PList l => match l with [] => false | _ => true end
  | PDict d => match d with [] => false | _ => true end
  end.

(** [type(v).__name__] *)
Definition type_name (v : pyval) : string :=
  match v with
  | PNone => "NoneType"
  | PBool _ => "bool"
  | PInt _ => "int"
  | PFloat _ => "float"
  | PStr _ => "str"
  | PList _ => "list"
  | PDict _ => "dict"
  end.

(** *** [repr] and [str] *)

Definition repr_char (quote c : ascii) : string :=
  if bool_decide (c = quote) || bool_decide (c = "\"%char)
  then String "\" (String c EmptyString)
  else if bool_decide (c = "009"%char) then "\t"
  else if bool_decide (c = "010"%char) then "\n"
  else if bool_decide (c = "013"%char) then "\r"
  else if (N_of_ascii c <? 32)%N
          || ((126 <? N_of_ascii c)%N && (N_of_ascii c <? 161)%N)
          || (N_of_ascii c =? 173)%N
  then "\x" +:+ Str.hex2 c
  else String c EmptyString.

Fixpoint repr_chars (quote : ascii) (s : string) : string :=
  match s with
  | EmptyString => EmptyString
  | String c s' => repr_char quote c +:+ repr_chars quote s'
  end.

(** [repr(s)] of a [str]: single quotes, unless the text has a single quote
    and no double quote; characters that do not print are escaped. *)
Definition repr_str (s : string) : string :=
  let quote : ascii :=
    if Str.contains "'" s && negb (Str.contains (String "034" EmptyString) s)
    then "034"%char else "'"%char in
  String quote (repr_chars quote s) +:+ String quote EmptyString.

Fixpoint py_repr (v : pyval) : string :=
  match v with
  | PNone => "None"
  | PBool b => if b then "True" else "False"
  | PInt z => pretty z
  | PFloat f => float_repr f
  | PStr s => repr_str s
  | PList l =>
      "[" +:+ Str.join ", "
                ((fix items (l : list pyval) : list string :=
                    match l with
                    | [] => []
                    | x :: rest => py_repr x :: items rest
                    end) l) +:+ "]"
  | PDict d =>
      "{" +:+ Str.join ", "
                ((fix items (d : list (string * pyval)) : list string :=
                    match d with
                    | [] => []
                    | (k, x) :: rest =>
                        (repr_str k +:+ ": " +:+ py_repr x) :: items rest
                    end) d) +:+ "}"
  end.

(** [str(v)], which is what an f-string field [{v}] prints *)
Definition py_str (v : pyval) : string :=
  match v with
  | PStr s => s
  | _ => py_repr v
  end.

(** *** [json.dumps(v, indent=2)] *)

(** One character of a JSON string, with [ensure_ascii] on: everything
    outside the printable ASCII range is escaped. *)
Definition json_char (c : ascii) : string :=
  if bool_decide (c = "034"%char) then String "\" (String "034" EmptyString)
  else if bool_decide (c = "\"%char) then "\\"
  else if bool_decide (c = "010"%char) then "\n"
  else if bool_decide (c = "013"%char) then "\r"
  else if bool_decide (c = "009"%char) then "\t"
  else if bool_decide (c = "008"%char) then "\b"
  else if bool_decide (c = "012"%char) then "\f"
  else if (N_of_ascii c <? 32)%N || (126 <? N_of_ascii c)%N
  then "\u00" +:+ Str.hex2 c
  else String c EmptyString.

Fixpoint json_chars (s : string) : string :=
  match s with
  | EmptyString => EmptyString
  | String c s' => json_char c +:+ json_chars s'
  end.

Definition json_str (s : string) : string :=
  String "034" (json_chars s) +:+ String "034" EmptyString.

Definition json_float (f : pyfloat) : string :=
  if bool_decide (float_repr f = "nan") then "NaN"
  else if bool_decide (float_repr f = "inf") then "Infinity"
  else if bool_decide (float_repr f = "-inf") then "-Infinity"
  else float_repr f.

Definition newline : string := String "010" EmptyString.

(** [level] is the nesting depth of [v]; its items sit two spaces deeper. *)
Fixpoint json_dumps_at (level : nat) (v : pyval) : string :=
  let newline_indent := newline +:+ Str.spaces (2 * S level) in
  let closing := newline +:+ Str.spaces (2 * level) in
  match v with
  | PNone => "null"
  | PBool b => if b then "true" else "false"
  | PInt z => pretty z
  | PFloat f => json_float f
  | PStr s => json_str s
  | PList [] => "[]"
  | PList l =>
      "[" +:+ newline_indent +:+
      Str.join ("," +:+ newline_indent)
        ((fix items (l : list pyval) : list string :=
            match l with
            | [] => []
            | x :: rest => json_dumps_at (S level) x :: items rest
            end) l) +:+ closing +:+ "]"
  | PDict [] => "{}"
  | PDict d =>
      "{" +:+ newline_indent +:+
      Str.join ("," +:+ newline_indent)
        ((fix items (d : list (string * pyval)) : list string :=
            match d with
            | [] => []
            | (k, x) :: rest =>
                (json_str k +:+ ": " +:+ json_dumps_at (S level) x) :: items rest
            end) d) +:+ closing +:+ "}"
  end.

Definition json_dumps (v : pyval) : string := json_dumps_at 0 v.

(** ** Exceptions *)

Inductive exn :=
| KeyError (key : string)
| AttributeError (msg : string)
| TypeError (msg : string)
| HTTPError (msg : string)        (* raised by [httpx]: transport or status *)
| JSONDecodeError (msg : string).

(** [str(e)]; a [KeyError] prints the [repr] of its key. *)
Definition str_exn (e : exn) : string :=
  match e with
  | KeyError key => repr_str key
  | AttributeError msg | TypeError msg | HTTPError msg | JSONDecodeError msg => msg
  end.

Definition no_attribute (v : pyval) (attr : string) : exn :=
  AttributeError ("'" +:+ type_name v +:+ "' object has no attribute '" +:+ attr +:+ "'").

Definition not_iterable (v : pyval) : exn :=
  TypeError ("'" +:+ type_name v +:+ "' object is not iterable").

(** ** The remote service *)

(** What [self.client.get(url, params=params)] is given. *)
Record request := Request { url : string; params : option (list (string * pyval)) }.

(** What comes back: the transport fails, or a response arrives with a
    status code, the message [raise_for_status] would raise with, and a body
    that [response.json()] either decodes or rejects with a message. *)
Record response := Response {
  status_code : Z;
  status_message : string;
  body : string + pyval
}.

Inductive reply :=
| TransportFailure (msg : string)
| Answer (r : response).

(** The remote service answers a request knowing the requests before it.
    A call is run from the empty history: a service that has already seen
    requests is again a service. *)
Definition remote := list request → request → reply.

(** ** Programs that await remote calls *)

Inductive prog (A : Type) :=
| Ret (a : A)
| Raise (e : exn)
| Call (r : request) (k : reply → prog A).

Arguments Ret {A} a.
Arguments Raise {A} e.
Arguments Call {A} r k.

Fixpoint bind {A B} (m : prog A) (f : A → prog B) : prog B :=
  match m with
  | Ret a => f a
  | Raise e => Raise e
  | Call r k => Call r (λ rep, bind (k rep) f)
  end.

Notation "x <- m ;; f" := (bind m (λ x, f))
  (at level 100, m at next level, right associativity,
   format "'[v' x  <-  m  ;;  '/' f ']'").

(** [try: m except Exception as e: handler(e)] *)
Fixpoint try_except {A} (m : prog A) (handler : exn → prog A) : prog A :=
  match m with
  | Ret a => Ret a
  | Raise e => handler e
  | Call r k => Call r (λ rep, try_except (k rep) handler)
  end.

(** [run w history m] plays [m] against the service [w]: the requests
    issued so far, oldest first, and how [m] ends. *)
Fixpoint run {A} (w : remote) (history : list request) (m : prog A)
  : list request * (exn + A) :=
  match m with
  | Ret a => (history, inr a)
  | Raise e => (history, inl e)
  | Call r k => run w (history ++ [r]) (k (w history r))
  end.

(** ** [MunicodeClient] *)

Definition MUNICODE_API_BASE : string := "https://api.municode.com".
Definition MUNICODE_LIBRARY_BASE : string := "https://library.municode.com".

(** [await self.client.get(url, params=params)] *)
Definition client_get (url : string) (params : option (list (string * pyval)))
  : prog response :=
  Call (Request url params)
       (λ rep, match rep with
               | TransportFailure msg => Raise (HTTPError msg)
               | Answer r => Ret r
               end).

Definition is_success (r : response) : bool :=
  (200 <=? status_code r) && (status_code r <=? 299).

(** [response.raise_for_status()] *)
Definition raise_for_status (r : response) : prog unit :=
  if is_success r then Ret tt else Raise (HTTPError (status_message r)).

(** [response.json()] *)
Definition response_json (r : response) : prog pyval :=
  match body r with
  | inl msg => Raise (JSONDecodeError msg)
  | inr v => Ret v
  end.

(** The three lines every client method ends with. *)
Definition fetch (url : string) (params : option (list (string * pyval)))
  : prog pyval :=
  response <- client_get url params ;;
  _ <- raise_for_status response ;;
  response_json response.

Definition get_states (state_abbr : pyval) : prog pyval :=
  let url := MUNICODE_API_BASE +:+ "/States/abbr" in
  let params := [("stateAbbr", state_abbr)] in
  fetch url (Some params).

Definition get_clients_by_state (state_abbr : pyval) : prog pyval :=
  let url := MUNICODE_API_BASE +:+ "/Clients/stateAbbr" in
  let params := [("stateAbbr", state_abbr)] in
  fetch url (Some params).

Definition get_client_by_name (client_name state_abbr : pyval) : prog pyval :=
  let url := MUNICODE_API_BASE +:+ "/Clients/name" in
  let params := [("clientName", client_name); ("stateAbbr", state_abbr)] in
  fetch url (Some params).

Definition get_client_content (client_id : pyval) : prog pyval :=
  let url := MUNICODE_API_BASE +:+ "/ClientContent/" +:+ py_str client_id in
  fetch url None.

Definition get_toc_children (job_id product_id node_id : pyval) : prog pyval :=
  let url := MUNICODE_API_BASE +:+ "/codesToc/children" in
  let params := [("jobId", job_id); ("productId", product_id); ("nodeId", node_id)] in
  fetch url (Some params).

Definition get_codes_content (job_id product_id node_id : pyval) : prog pyval :=
  let url := MUNICODE_API_BASE +:+ "/CodesContent" in
  let params := [("jobId", job_id); ("productId", product_id); ("nodeId", node_id)] in
  fetch url (Some params).

Definition search_munidocs
    (client_id search_text page_num page_size titles_only is_advanced : pyval)
  : prog pyval :=
  let url := MUNICODE_API_BASE +:+ "/search" in
  let params :=
    [("clientId", client_id);
     ("searchText", search_text);
     ("pageNum", page_num);
     ("pageSize", page_size);
     ("titlesOnly", titles_only);
     ("isAdvanced", is_advanced);
     ("isAutocomplete", PBool false);
     ("mode", PStr "standard");
     ("sort", PInt 0);
     ("fragmentSize", PInt 200);
     ("contentTypeId", PStr "");
     ("stateId", PInt 0)] in
  fetch url (Some params).

(** ** Operations of the dispatcher on Python values *)

(** [arguments[key]] *)
Definition getitem (arguments : gmap string pyval) (key : string) : prog pyval :=
  match arguments !! key with
  | Some v => Ret v
  | None => Raise (KeyError key)
  end.

(** [arguments.get(key, default)] *)
Definition args_get (arguments : gmap string pyval) (key : string) (default : pyval)
  : pyval :=
  match arguments !! key with
  | Some v => v
  | None => default
  end.

(** [v.get(key, default)]: only a [dict] has the method. *)
Definition py_get (v : pyval) (key : string) (default : pyval) : prog pyval :=
  match v with
  | PDict d => Ret (match assoc key d with Some x => x | None => default end)
  | _ => Raise (no_attribute v "get")
  end.

(** [v.upper()] and [v.lower()]: only a [str] has the methods. *)
Definition py_upper (v : pyval) : prog string :=
  match v with
  | PStr s => Ret (Str.upper s)
  | _ => Raise (no_attribute v "upper")
  end.

Definition py_lower (v : pyval) : prog string :=
  match v with
  | PStr s => Ret (Str.lower s)
  | _ => Raise (no_attribute v "lower")
  end.

(** The items a [for] loop over [v] visits: the elements of a [list], the
    keys of a [dict], the characters of a [str]. *)
Definition py_iter (v : pyval) : prog (list pyval) :=
  match v with
  | PList l => Ret l
  | PDict d => Ret (List.map (λ kv, PStr (fst kv)) d)
  | PStr s => Ret (List.map PStr (Str.chars s))
  | _ => Raise (not_iterable v)
  end.

(** ** [handle_call_tool] *)

Record TextContent := { type : string; text : string }.

(** [[TextContent(type="text", text=t)]] *)
Definition text_result (t : string) : list TextContent :=
  [{| type := "text"; text := t |}].

(** The loop of [list_municipalities] that builds [formatted_clients]. *)
Fixpoint format_clients (clients : list pyval) : prog (list pyval) :=
  match clients with
  | [] => Ret []
  | client :: rest =>
      name <- py_get client "ClientName" (PStr "Unknown") ;;
      id <- py_get client "ClientID" PNone ;;
      population_range <- py_get client "PopRangeId" PNone ;;
      classification <- py_get client "ClassificationId" PNone ;;
      website <- py_get client "Website" PNone ;;
      city <- py_get client "City" PNone ;;
      zip_code <- py_get client "ZipCode" PNone ;;
      formatted <- format_clients rest ;;
      Ret (PDict [("name", name);
                  ("id", id);
                  ("population_range", population_range);
                  ("classification", classification);
                  ("website", website);
                  ("city", city);
                  ("zip_code", zip_code)] :: formatted)
  end.

(** The loop of [get_code_structure] and [get_code_section] that looks for
    the code of ordinances; [code_product] stays [None] when no product
    matches. *)
Fixpoint find_code_product (products : list pyval) : prog pyval :=
  match products with
  | [] => Ret PNone
  | product :: rest =>
      product_name <- py_get product "ProductName" (PStr "") ;;
      lowered <- py_lower product_name ;;
      if Str.contains "code" lowered then Ret product
      else find_code_product rest
  end.

Definition not_found_text (municipality_name : pyval) (state_abbr : string) : string :=
  "Municipality '" +:+ py_str municipality_name +:+ "' not found in " +:+ state_abbr.

Definition no_code_text : string :=
  "No code of ordinances found for this municipality".

Definition tool_get_states_info (arguments : gmap string pyval)
  : prog (list TextContent) :=
  state_abbr <- (v <- getitem arguments "state_abbr" ;; py_upper v) ;;
  result <- get_states (PStr state_abbr) ;;
  Ret (text_result (json_dumps result)).

Definition tool_list_municipalities (arguments : gmap string pyval)
  : prog (list TextContent) :=
  state_abbr <- (v <- getitem arguments "state_abbr" ;; py_upper v) ;;
  clients <- get_clients_by_state (PStr state_abbr) ;;
  items <- py_iter clients ;;
  formatted_clients <- format_clients items ;;
  Ret (text_result
         ("Found " +:+ pretty (Z.of_nat (length formatted_clients)) +:+
          " municipalities in " +:+ state_abbr +:+ ":" +:+ newline +:+ newline +:+
          json_dumps (PList formatted_clients))).

Definition tool_get_municipality_info (arguments : gmap string pyval)
  : prog (list TextContent) :=
  municipality_name <- getitem arguments "municipality_name" ;;
  state_abbr <- (v <- getitem arguments "state_abbr" ;; py_upper v) ;;
  client_info <- get_client_by_name municipality_name (PStr state_abbr) ;;
  client_id <- py_get client_info "ClientID" PNone ;;
  result <-
    (if truthy client_id then
       client_content <- get_client_content client_id ;;
       Ret (PDict [("client_info", client_info);
                   ("available_products", client_content)])
     else Ret (PDict [("client_info", client_info)])) ;;
  Ret (text_result (json_dumps result)).

Definition tool_get_code_structure (arguments : gmap string pyval)
  : prog (list TextContent) :=
  municipality_name <- getitem arguments "municipality_name" ;;
  state_abbr <- (v <- getitem arguments "state_abbr" ;; py_upper v) ;;
  let node_id := args_get arguments "node_id" (PStr "10121") in
  client_info <- get_client_by_name municipality_name (PStr state_abbr) ;;
  client_id <- py_get client_info "ClientID" PNone ;;
  if negb (truthy client_id) then
    Ret (text_result (not_found_text municipality_name state_abbr))
  else
    client_content <- get_client_content client_id ;;
    products <- py_iter client_content ;;
    code_product <- find_code_product products ;;
    if negb (truthy code_product) then Ret (text_result no_code_text)
    else
      job_id <- py_get code_product "Id" PNone ;;
      product_id <- py_get code_product "ProductID" PNone ;;
      toc <- get_toc_children job_id product_id node_id ;;
      Ret (text_result
             ("Code structure for " +:+ py_str municipality_name +:+ ", " +:+
              state_abbr +:+ ":" +:+ newline +:+ newline +:+ json_dumps toc)).

Definition tool_get_code_section (arguments : gmap string pyval)
  : prog (list TextContent) :=
  municipality_name <- getitem arguments "municipality_name" ;;
  state_abbr <- (v <- getitem arguments "state_abbr" ;; py_upper v) ;;
  node_id <- getitem arguments "node_id" ;;
  client_info <- get_client_by_name municipality_name (PStr state_abbr) ;;
  client_id <- py_get client_info "ClientID" PNone ;;
  if negb (truthy client_id) then
    Ret (text_result (not_found_text municipality_name state_abbr))
  else
    client_content <- get_client_content client_id ;;
    products <- py_iter client_content ;;
    code_product <- find_code_product products ;;
    if negb (truthy code_product) then Ret (text_result no_code_text)
    else
      job_id <- py_get code_product "Id" PNone ;;
      product_id <- py_get code_product "ProductID" PNone ;;
      content <- get_codes_content job_id product_id node_id ;;
      Ret (text_result
             ("Content for node " +:+ py_str node_id +:+ " in " +:+
              py_str municipality_name +:+ ", " +:+ state_abbr +:+ ":" +:+
              newline +:+ newline +:+ json_dumps content)).

Definition tool_search_municipal_codes (arguments : gmap string pyval)
  : prog (list TextContent) :=
  municipality_name <- getitem arguments "municipality_name" ;;
  state_abbr <- (v <- getitem arguments "state_abbr" ;; py_upper v) ;;
  search_query <- getitem arguments "search_query" ;;
  let page_size := args_get arguments "page_size" (PInt 10) in
  let page_number := args_get arguments "page_number" (PInt 1) in
  let titles_only := args_get arguments "titles_only" (PBool false) in
  client_info <- get_client_by_name municipality_name (PStr state_abbr) ;;
  client_id <- py_get client_info "ClientID" PNone ;;
  if negb (truthy client_id) then
    Ret (text_result (not_found_text municipality_name state_abbr))
  else
    search_results <-
      search_munidocs client_id search_query page_number page_size titles_only
                      (PBool false) ;;
    Ret (text_result
           ("Search results for '" +:+ py_str search_query +:+ "' in " +:+
            py_str municipality_name +:+ ", " +:+ state_abbr +:+ ":" +:+
            newline +:+ newline +:+ json_dumps search_results)).

Definition tool_get_municipality_url (arguments : gmap string pyval)
  : prog (list TextContent) :=
  municipality_name <- getitem arguments "municipality_name" ;;
  state_abbr <- (v <- getitem arguments "state_abbr" ;; py_lower v) ;;
  lowered <- py_lower municipality_name ;;
  let formatted_name := Str.replace "," "" (Str.replace " " "_" lowered) in
  let url :=
    MUNICODE_LIBRARY_BASE +:+ "/" +:+ state_abbr +:+ "/" +:+ formatted_name +:+
    "/codes/code_of_ordinances" in
  Ret (text_result
         ("Municode Library URL for " +:+ py_str municipality_name +:+ ", " +:+
          Str.upper state_abbr +:+ ":" +:+ newline +:+ url)).

(** The body of the [try] block: the chain of [if]/[elif] on the name. *)
Definition dispatch (name : string) (arguments : gmap string pyval)
  : prog (list TextContent) :=
  if String.eqb name "get_states_info" then tool_get_states_info arguments
  else if String.eqb name "list_municipalities" then tool_list_municipalities arguments
  else if String.eqb name "get_municipality_info" then tool_get_municipality_info arguments
  else if String.eqb name "get_code_structure" then tool_get_code_structure arguments
  else if String.eqb name "get_code_section" then tool_get_code_section arguments
  else if String.eqb name "search_municipal_codes" then tool_search_municipal_codes arguments
  else if String.eqb name "get_municipality_url" then tool_get_municipality_url arguments
  else Ret (text_result ("Unknown tool: " +:+ name)).

(** The [except Exception as e] clause; the line it logs is not modelled. *)
Definition error_result (e : exn) : prog (list TextContent) :=
  Ret (text_result ("Error: " +:+ str_exn e)).

Definition handle_call_tool (name : string) (arguments : gmap string pyval)
  : prog (list TextContent) :=
  try_except (dispatch name arguments) error_result.

(** The names [handle_list_tools] registers, in its order. *)
Definition tool_names : list string :=
  ["get_states_info"; "list_municipalities"; "get_municipality_info";
   "get_code_structure"; "get_code_section"; "search_municipal_codes";
   "get_municipality_url"].

(** ** What a client method makes of a reply *)

(** The exception or the decoded body the three closing lines of a client
    method produce from the reply to their request. *)
Definition reply_outcome (rep : reply) : exn + pyval :=
  match rep with
  | TransportFailure msg => inl (HTTPError msg)
  | Answer r =>
      if is_success r then
        match body r with
        | inl msg => inl (JSONDecodeError msg)
        | inr v => inr v
        end
      else inl (HTTPError (status_message r))
  end.

(** A reply with a 2xx status and the decoded body [v]. *)
Definition ok_reply (v : pyval) : reply :=
  Answer {| status_code := 200; status_message := ""; body := inr v |}.

(** * Notions used to state the properties *)

(** [propagates P m]: wherever [m] awaits a reply, a failed reply ends [m]
    with the client's exception, and every value [m] returns is in [P]. *)
Inductive propagates {A} (P : A → Prop) : prog A → Prop :=
| propagates_ret a : P a → propagates P (Ret a)
| propagates_raise e : propagates P (Raise e)
| propagates_call r k :
    (∀ rep e, reply_outcome rep = inl e → k rep = Raise e) →
    (∀ rep v, reply_outcome rep = inr v → propagates P (k rep)) →
    propagates P (Call r k).

Definition one_text (out : list TextContent) : Prop :=
  ∃ t, out = [{| type := "text"; text := t |}].

(** Replacing one character: every occurrence gives way to [new]. *)
Fixpoint replace_char (old : ascii) (new s : string) : string :=
  match s with
  | EmptyString => EmptyString
  | String c s' =>
      if bool_decide (old = c) then new +:+ replace_char old new s'
      else String c (replace_char old new s')
  end.

(** The slug in the words of the specification: spaces become underscores,
    commas go, every other character is lower-cased. *)
Fixpoint slugify (s : string) : string :=
  match s with
  | EmptyString => EmptyString
  | String c s' =>
      if bool_decide (c = " "%char) then String "_" (slugify s')
      else if bool_decide (c = ","%char) then slugify s'
      else String (Str.lower_char c) (slugify s')
  end.

Definition clients_name_request (client_name : pyval) (state_abbr : string) : request :=
  {| url := "https://api.municode.com/Clients/name";
     params := Some [("clientName", client_name); ("stateAbbr", PStr state_abbr)] |}.

Definition client_content_request (client_id : pyval) : request :=
  {| url := "https://api.municode.com/ClientContent/" +:+ py_str client_id;
     params := None |}.

Definition toc_children_request (job_id product_id node_id : pyval) : request :=
  {| url := "https://api.municode.com/codesToc/children";
     params := Some [("jobId", job_id); ("productId", product_id);
                     ("nodeId", node_id)] |}.

Definition codes_content_request (job_id product_id node_id : pyval) : request :=
  {| url := "https://api.municode.com/CodesContent";
     params := Some [("jobId", job_id); ("productId", product_id);
                     ("nodeId", node_id)] |}.

Definition search_request
    (client_id search_text page_num page_size titles_only is_advanced : pyval)
  : request :=
  {| url := "https://api.municode.com/search";
     params := Some [("clientId", client_id);
                     ("searchText", search_text);
                     ("pageNum", page_num);
                     ("pageSize", page_size);
                     ("titlesOnly", titles_only);
                     ("isAdvanced", is_advanced);
                     ("isAutocomplete", PBool false);
                     ("mode", PStr "standard");
                     ("sort", PInt 0);
                     ("fragmentSize", PInt 200);
                     ("contentTypeId", PStr "");
                     ("stateId", PInt 0)] |}.

(** [d.get(key)] of a [dict] given by its items *)
Definition dict_get (d : list (string * pyval)) (key : string) : pyval :=
  match assoc key d with Some x => x | None => PNone end.

(** The name the loop reads off a product: its [ProductName] when that is
    text, the empty text when the record has none; anything else makes the
    loop raise. *)
Definition product_name (p : pyval) : option string :=
  match p with
  | PDict dp =>
      match assoc "ProductName" dp with
      | Some (PStr n) => Some n
      | Some _ => None
      | None => Some ""
      end
  | _ => None
  end.

(** A product whose name contains "code", in any letter case. *)
Definition names_code (p : pyval) : bool :=
  match product_name p with
  | Some n => Str.contains "code" (Str.lower n)
  | None => false
  end.

(** A product record the loop passes over. *)
Definition passed_over (p : pyval) : bool :=
  match product_name p with
  | Some n => negb (Str.contains "code" (Str.lower n))
  | None => false
  end.

(** [p.get(key)] of a product *)
Definition field (p : pyval) (key : string) : pyval :=
  match p with
  | PDict dp => dict_get dp key
  | _ => PNone
  end.

(** The lookup of [m] in state [s] gives the truthy identifier [client_id],
    and the products fetched for it come as a list in which [p] is the first
    to name a code: every entry before [p] is a product record that names
    none, and what follows [p] is arbitrary. *)
Definition finds_code_product
    (arguments : gmap string pyval) (w : remote)
    (m : pyval) (s : string) (client_id p : pyval) : Prop :=
  arguments !! "municipality_name" = Some m ∧
  arguments !! "state_abbr" = Some (PStr s) ∧
  ∃ d before after,
    reply_outcome (w [] (clients_name_request m (Str.upper s))) = inr (PDict d) ∧
    assoc "ClientID" d = Some client_id ∧
    truthy client_id = true ∧
    reply_outcome (w [clients_name_request m (Str.upper s)]
                     (client_content_request client_id)) =
      inr (PList (before ++ p :: after)) ∧
    Forall (λ q, passed_over q = true) before ∧
    names_code p = true.

(** ** Sample services and arguments *)

Definition server_error : remote :=
  λ _ _, Answer {| status_code := 500;
                   status_message := "Server error '500 Internal Server Error'";
                   body := inl "Expecting value" |}.

(** A service that knows no municipality: every lookup answers with a
    record whose identifier is 0. *)
Definition knows_nobody : remote :=
  λ _ _, ok_reply (PDict [("ClientID", PInt 0); ("ClientName", PNone)]).

Definition norfolk_va : gmap string pyval :=
  <["municipality_name" := PStr "Norfolk"]> {["state_abbr" := PStr "va"]}.

Definition empty_identifier : remote :=
  λ _ _, ok_reply (PDict [("ClientName", PStr "Norfolk"); ("ClientID", PStr "")]).

(** A service with one municipality, whose products name a code twice. *)
Definition two_codes : list pyval :=
  [PDict [("ProductName", PStr "Zoning"); ("Id", PInt 3); ("ProductID", PInt 30)];
   PDict [("ProductName", PStr "CODE of Ordinances"); ("Id", PInt 11);
          ("ProductID", PInt 22)];
   PDict [("ProductName", PStr "Building Codes"); ("Id", PInt 5);
          ("ProductID", PInt 50)]].

Definition norfolk_service : remote :=
  λ _ r,
    if String.eqb (url r) "https://api.municode.com/Clients/name"
    then ok_reply (PDict [("ClientID", PInt 7); ("ClientName", PStr "Norfolk")])
    else if String.eqb (url r) "https://api.municode.com/ClientContent/7"
    then ok_reply (PList two_codes)
    else ok_reply (PList []).

(** A service whose product list names a code twice, after an entry whose
    name is [null]. *)
Definition null_name_first : remote :=
  λ _ r,
    if String.eqb (url r) "https://api.municode.com/Clients/name"
    then ok_reply (PDict [("ClientID", PInt 7); ("ClientName", PStr "Norfolk")])
    else ok_reply (PList (PDict [("ProductName", PNone); ("Id", PInt 1);
                                 ("ProductID", PInt 10)] :: drop 1 two_codes)).

Definition norfolk_titles : gmap string pyval :=
  <["search_query" := PStr "zoning"]> (<["titles_only" := PBool true]> norfolk_va).

(** * The rest of the server *)

(** ** The client methods the dispatcher does not call *)

Definition get_product_by_name (client_id product_name : pyval) : prog pyval :=
  let url := MUNICODE_API_BASE +:+ "/Products/name" in
  let params := [("clientId", client_id); ("productName", product_name)] in
  fetch url (Some params).

Definition get_latest_job (job_id : pyval) : prog pyval :=
  let url := MUNICODE_API_BASE +:+ "/Jobs/latest/" +:+ py_str job_id in
  fetch url None.

(** ** [handle_list_tools] *)

(** The double quote, for texts that hold one. *)
Definition dq : string := String "034" EmptyString.

Module Tool.
Record t := { name : string; description : string; inputSchema : pyval }.
End Tool.

Module Resource.
Record t := { uri : string; name : string; description : string; mimeType : string }.
End Resource.

Definition handle_list_tools : list Tool.t :=
  [{| Tool.name := "get_states_info";
     Tool.description :=
       "Get information about a US state by its abbreviation";
     Tool.inputSchema :=
       PDict
         [("type", PStr "object");
          ("properties", PDict
           [("state_abbr", PDict
             [("type", PStr "string");
              ("description", PStr "Two-character US state abbreviation (e.g., 'VA', 'TX', 'CA')")])]);
          ("required", PList [PStr "state_abbr"])] |};
   {| Tool.name := "list_municipalities";
     Tool.description :=
       "List all municipalities in a state that use Municode";
     Tool.inputSchema :=
       PDict
         [("type", PStr "object");
          ("properties", PDict
           [("state_abbr", PDict
             [("type", PStr "string");
              ("description", PStr "Two-character US state abbreviation (e.g., 'VA', 'TX', 'CA')")])]);
          ("required", PList [PStr "state_abbr"])] |};
   {| Tool.name := "get_municipality_info";
     Tool.description :=
       "Get detailed information about a specific municipality";
     Tool.inputSchema :=
       PDict
         [("type", PStr "object");
          ("properties", PDict
           [("municipality_name", PDict
             [("type", PStr "string");
              ("description", PStr "Name of the city, county, or municipality")]);
            ("state_abbr", PDict
             [("type", PStr "string");
              ("description", PStr "Two-character US state abbreviation")])]);
          ("required", PList [PStr "municipality_name"; PStr "state_abbr"])] |};
   {| Tool.name := "get_code_structure";
     Tool.description :=
       "Get the table of contents structure for a municipality's code";
     Tool.inputSchema :=
       PDict
         [("type", PStr "object");
          ("properties", PDict
           [("municipality_name", PDict
             [("type", PStr "string");
              ("description", PStr "Name of the city, county, or municipality")]);
            ("state_abbr", PDict
             [("type", PStr "string");
              ("description", PStr "Two-character US state abbreviation")]);
            ("node_id", PDict
             [("type", PStr "string");
              ("description", PStr "Optional specific node ID to get children for (defaults to root)");
              ("default", PStr "10121")])]);
          ("required", PList [PStr "municipality_name"; PStr "state_abbr"])] |};
   {| Tool.name := "get_code_section";
     Tool.description :=
       "Get the content of a specific section of municipal code";
     Tool.inputSchema :=
       PDict
         [("type", PStr "object");
          ("properties", PDict
           [("municipality_name", PDict
             [("type", PStr "string");
              ("description", PStr "Name of the city, county, or municipality")]);
            ("state_abbr", PDict
             [("type", PStr "string");
              ("description", PStr "Two-character US state abbreviation")]);
            ("node_id", PDict
             [("type", PStr "string");
              ("description", PStr "Node ID of the specific code section to retrieve")])]);
          ("required", PList [PStr "municipality_name"; PStr "state_abbr"; PStr "node_id"])] |};
   {| Tool.name := "search_municipal_codes";
     Tool.description :=
       "Search through municipal codes and ordinances";
     Tool.inputSchema :=
       PDict
         [("type", PStr "object");
          ("properties", PDict
           [("municipality_name", PDict
             [("type", PStr "string");
              ("description", PStr "Name of the city, county, or municipality")]);
            ("state_abbr", PDict
             [("type", PStr "string");
              ("description", PStr "Two-character US state abbreviation")]);
            ("search_query", PDict
             [("type", PStr "string");
              ("description", PStr "Text to search for in the municipal codes")]);
            ("page_size", PDict
             [("type", PStr "integer");
              ("description", PStr "Number of results per page (default: 10)");
              ("default", PInt 10)]);
            ("page_number", PDict
             [("type", PStr "integer");
              ("description", PStr "Page number to retrieve (default: 1)");
              ("default", PInt 1)]);
            ("titles_only", PDict
             [("type", PStr "boolean");
              ("description", PStr "Search only in titles (default: false)");
              ("default", PBool false)])]);
          ("required", PList [PStr "municipality_name"; PStr "state_abbr"; PStr "search_query"])] |};
   {| Tool.name := "get_municipality_url";
     Tool.description :=
       "Get the URL for a municipality's code library page";
     Tool.inputSchema :=
       PDict
         [("type", PStr "object");
          ("properties", PDict
           [("municipality_name", PDict
             [("type", PStr "string");
              ("description", PStr "Name of the city, county, or municipality")]);
            ("state_abbr", PDict
             [("type", PStr "string");
              ("description", PStr "Two-character US state abbreviation")])]);
          ("required", PList [PStr "municipality_name"; PStr "state_abbr"])] |}].


(** ** [handle_list_resources] and [handle_read_resource] *)

Definition handle_list_resources : list Resource.t :=
  [{| Resource.uri := "municode://help";
      Resource.name := "Municode MCP Server Help";
      Resource.description := "Documentation for using the Municode MCP server";
      Resource.mimeType := "text/plain" |}].

Inductive read_error :=
| ValueError (msg : string).

(** The text [handle_read_resource] returns for the help resource: the
    lines of its literal, the first one empty. *)
Definition help_text : string :=
  Str.join newline
    [EmptyString;
     "# Municode MCP Server";
     EmptyString;
     "This server provides access to municipal codes and ordinances through the Municode digital library.";
     EmptyString;
     "## Available Tools:";
     EmptyString;
     "1. **get_states_info** - Get information about a US state by abbreviation";
     "2. **list_municipalities** - List all municipalities in a state that use Municode";
     "3. **get_municipality_info** - Get detailed information about a specific municipality";
     "4. **get_code_structure** - Get the table of contents structure for a municipality's code";
     "5. **get_code_section** - Get the content of a specific section of municipal code";
     "6. **search_municipal_codes** - Search through municipal codes and ordinances";
     "7. **get_municipality_url** - Get the URL for a municipality's code library page";
     EmptyString;
     "## Example Usage:";
     EmptyString;
     "1. First, list municipalities in your state:";
     "   - Tool: list_municipalities";
     ("   - Args: {" +:+ dq +:+ "state_abbr" +:+ dq +:+ ": " +:+ dq +:+ "VA" +:+ dq +:+ "}");
     EmptyString;
     "2. Get detailed info about a municipality:";
     "   - Tool: get_municipality_info";
     ("   - Args: {" +:+ dq +:+ "municipality_name" +:+ dq +:+ ": " +:+ dq +:+ "Norfolk" +:+ dq +:+ ", " +:+ dq +:+ "state_abbr" +:+ dq +:+ ": " +:+ dq +:+ "VA" +:+ dq +:+ "}");
     EmptyString;
     "3. Browse the code structure:";
     "   - Tool: get_code_structure";
     ("   - Args: {" +:+ dq +:+ "municipality_name" +:+ dq +:+ ": " +:+ dq +:+ "Norfolk" +:+ dq +:+ ", " +:+ dq +:+ "state_abbr" +:+ dq +:+ ": " +:+ dq +:+ "VA" +:+ dq +:+ "}");
     EmptyString;
     "4. Search for specific topics:";
     "   - Tool: search_municipal_codes";
     ("   - Args: {" +:+ dq +:+ "municipality_name" +:+ dq +:+ ": " +:+ dq +:+ "Norfolk" +:+ dq +:+ ", " +:+ dq +:+ "state_abbr" +:+ dq +:+ ": " +:+ dq +:+ "VA" +:+ dq +:+ ", " +:+ dq +:+ "search_query" +:+ dq +:+ ": " +:+ dq +:+ "zoning" +:+ dq +:+ "}");
     EmptyString;
     "## Notes:";
     EmptyString;
     "- State abbreviations should be 2-letter codes (VA, TX, CA, etc.)";
     "- Municipality names should match exactly as they appear in Municode";
     "- Some municipalities may not have all products/features available";
     "- The API uses unofficial endpoints that may change";
     EmptyString;
     "Based on the unofficial Municode API documentation.";
     "        "].


(** [handle_read_resource] is not wrapped in a [try]: its exception reaches
    the caller. *)
Definition handle_read_resource (uri : string) : read_error + string :=
  if String.eqb uri "municode://help" then inr help_text
  else inl (ValueError ("Unknown resource: " +:+ uri)).

(** ** The client of [test_server.py] *)

Module TestServer.

Definition MUNICODE_API_BASE : string := "https://api.municode.com".

Definition get_states (state_abbr : pyval) : prog pyval :=
  let url := MUNICODE_API_BASE +:+ "/States/abbr" in
  let params := [("stateAbbr", state_abbr)] in
  fetch url (Some params).

Definition get_clients_by_state (state_abbr : pyval) : prog pyval :=
  let url := MUNICODE_API_BASE +:+ "/Clients/stateAbbr" in
  let params := [("stateAbbr", state_abbr)] in
  fetch url (Some params).

Definition get_client_by_name (client_name state_abbr : pyval) : prog pyval :=
  let url := MUNICODE_API_BASE +:+ "/Clients/name" in
  let params := [("clientName", client_name); ("stateAbbr", state_abbr)] in
  fetch url (Some params).

Definition search_munidocs
    (client_id search_text page_num page_size titles_only : pyval)
  : prog pyval :=
  let url := MUNICODE_API_BASE +:+ "/search" in
  let params :=
    [("clientId", client_id);
     ("searchText", search_text);
     ("pageNum", page_num);
     ("pageSize", page_size);
     ("titlesOnly", titles_only);
     ("isAdvanced", PBool false);
     ("isAutocomplete", PBool false);
     ("mode", PStr "standard");
     ("sort", PInt 0);
     ("fragmentSize", PInt 200);
     ("contentTypeId", PStr "");
     ("stateId", PInt 0)] in
  fetch url (Some params).

End TestServer.

(** * Notions used to state the further properties *)

(** What the catalogue declares for a tool. *)
Definition schema_properties (tool : Tool.t) : list (string * pyval) :=
  match field (Tool.inputSchema tool) "properties" with
  | PDict ps => ps
  | _ => []
  end.

Definition schema_required (tool : Tool.t) : list string :=
  match field (Tool.inputSchema tool) "required" with
  | PList l => omap (λ v, match v with PStr k => Some k | _ => None end) l
  | _ => []
  end.

Definition schema_defaults (tool : Tool.t) : list (string * pyval) :=
  omap (λ kv, match kv.2 with
              | PDict decl => (λ v, (kv.1, v)) <$> assoc "default" decl
              | _ => None
              end)
       (schema_properties tool).

Definition schema_types (tool : Tool.t) : list pyval :=
  List.map (λ kv, field kv.2 "type") (schema_properties tool).

(** [sends Q P n m]: [m] issues at most [n] requests, one after the other,
    each of them in [Q], and every value it returns is in [P]. *)
Inductive sends {A} (Q : request → Prop) (P : A → Prop) : nat → prog A → Prop :=
| sends_ret n a : P a → sends Q P n (Ret a)
| sends_raise n e : sends Q P n (Raise e)
| sends_call n r k :
    Q r → (∀ rep, sends Q P n (k rep)) → sends Q P (S n) (Call r k).

(** The endpoints the dispatcher talks to. *)
Definition endpoint_used (r : request) : bool :=
  bool_decide (url r ∈ ["https://api.municode.com/States/abbr";
                        "https://api.municode.com/Clients/stateAbbr";
                        "https://api.municode.com/Clients/name";
                        "https://api.municode.com/codesToc/children";
                        "https://api.municode.com/CodesContent";
                        "https://api.municode.com/search"])
  || Str.startswith "https://api.municode.com/ClientContent/" (url r).

(** The upper-case form of the text the caller gave as [state_abbr]. *)
Definition upper_state (arguments : gmap string pyval) (u : string) : Prop :=
  ∃ s, arguments !! "state_abbr" = Some (PStr s) ∧ u = Str.upper s.

(** A request that names a state names the one of the arguments, in upper
    case. *)
Definition state_in_upper_case (arguments : gmap string pyval) (r : request) : Prop :=
  ∀ query v,
    params r = Some query → assoc "stateAbbr" query = Some v →
    ∃ u, v = PStr u ∧ upper_state arguments u.

(** What the dispatcher keeps to in every request of a call. *)
Definition request_kept (arguments : gmap string pyval) (r : request) : Prop :=
  endpoint_used r = true ∧ state_in_upper_case arguments r.

(** The most requests a call of the tool [name] sends. *)
Definition max_requests (name : string) : nat :=
  if String.eqb name "get_states_info" then 1
  else if String.eqb name "list_municipalities" then 1
  else if String.eqb name "get_municipality_info" then 2
  else if String.eqb name "get_code_structure" then 3
  else if String.eqb name "get_code_section" then 3
  else if String.eqb name "search_municipal_codes" then 2
  else 0.

(** The record [list_municipalities] shows for a client record [d]. *)
Definition project_client (d : list (string * pyval)) : pyval :=
  PDict [("name", match assoc "ClientName" d with Some v => v | None => PStr "Unknown" end);
         ("id", dict_get d "ClientID");
         ("population_range", dict_get d "PopRangeId");
         ("classification", dict_get d "ClassificationId");
         ("website", dict_get d "Website");
         ("city", dict_get d "City");
         ("zip_code", dict_get d "ZipCode")].

(** No capital letter, no space and no comma. *)
Fixpoint slug_clean (s : string) : bool :=
  match s with
  | EmptyString => true
  | String c s' =>
      negb (Str.is_upper c) && negb (bool_decide (c = " "%char)) &&
      negb (bool_decide (c = ","%char)) && slug_clean s'
  end.

Definition states_request (state_abbr : string) : request :=
  {| url := "https://api.municode.com/States/abbr";
     params := Some [("stateAbbr", PStr state_abbr)] |}.

Definition clients_state_request (state_abbr : string) : request :=
  {| url := "https://api.municode.com/Clients/stateAbbr";
     params := Some [("stateAbbr", PStr state_abbr)] |}.

Definition product_name_request (client_id product_name : pyval) : request :=
  {| url := "https://api.municode.com/Products/name";
     params := Some [("clientId", client_id); ("productName", product_name)] |}.

Definition latest_job_request (job_id : pyval) : request :=
  {| url := "https://api.municode.com/Jobs/latest/" +:+ py_str job_id;
     params := None |}.

(** How a call ends on the reply to its last request: with the error text
    of the client's exception, or with the text made of the decoded body. *)
Definition final_text (rep : reply) (on_body : pyval → string) : string :=
  match reply_outcome rep with
  | inl e => "Error: " +:+ str_exn e
  | inr v => on_body v
  end.

(** Two client records, with a field the listing drops. *)
Definition two_clients : list (list (string * pyval)) :=
  [[("ClientID", PInt 7); ("ClientName", PStr "Norfolk"); ("StateID", PInt 51)];
   [("City", PStr "Suffolk")]].

(** The lookup of [m] in state [s] gives the truthy identifier [client_id]. *)
Definition finds_identifier
    (arguments : gmap string pyval) (w : remote)
    (m : pyval) (s : string) (client_id : pyval) : Prop :=
  arguments !! "municipality_name" = Some m ∧
  arguments !! "state_abbr" = Some (PStr s) ∧
  ∃ d,
    reply_outcome (w [] (clients_name_request m (Str.upper s))) = inr (PDict d) ∧
    assoc "ClientID" d = Some client_id ∧
    truthy client_id = true.

(** The reply to the product request that follows the lookup. *)
Definition products_reply (w : remote) (m : pyval) (s : string) (client_id : pyval)
  : exn + pyval :=
  reply_outcome (w [clients_name_request m (Str.upper s)]
                   (client_content_request client_id)).

(** A service whose municipality has no product that names a code. *)
Definition zoning_only : remote :=
  λ _ r,
    if String.eqb (url r) "https://api.municode.com/Clients/name"
    then ok_reply (PDict [("ClientID", PInt 7); ("ClientName", PStr "Norfolk")])
    else ok_reply (PList [PDict [("ProductName", PStr "Zoning")];
                          PDict [("Id", PInt 4)]]).

(** A call of the tool [name] with [state_abbr] set to the text [s]. *)
Definition call_in_state
    (name : string) (arguments : gmap string pyval) (w : remote) (s : string)
  : list request * (exn + list TextContent) :=
  run w [] (handle_call_tool name (<["state_abbr" := PStr s]> arguments)).

(** The sharp s, a small letter whose upper-case form is SS. *)
Definition sharp_s : string := String "223" EmptyString.

(** A service whose first product has no name. *)
Definition nameless_product : remote :=
  λ _ r,
    if String.eqb (url r) "https://api.municode.com/Clients/name"
    then ok_reply (PDict [("ClientID", PInt 7); ("ClientName", PStr "Norfolk")])
    else ok_reply (PList [PDict [("ProductName", PNone)];
                          PDict [("ProductName", PStr "Code of Ordinances")]]).

(** What the loop raises on an entry it cannot read. *)
Definition unreadable_product (x : pyval) : exn :=
  match x with
  | PDict dx => no_attribute (dict_get dx "ProductName") "lower"
  | _ => no_attribute x "get"
  end.

(** A value of the type a schema names. *)
Definition has_type (v type_name : pyval) : bool :=
  match type_name, v with
  | PStr "string", PStr _ => true
  | PStr "integer", PInt _ => true
  | PStr "boolean", PBool _ => true
  | _, _ => false
  end.

(** Arguments that satisfy the schema of a tool: every required parameter
    is there, and every declared parameter that is there has its declared
    type. *)
Definition schema_valid (tool : Tool.t) (arguments : gmap string pyval) : Prop :=
  Forall (λ key, is_Some (arguments !! key)) (schema_required tool) ∧
  Forall (λ kv, ∀ v, arguments !! kv.1 = Some v →
                     has_type v (field kv.2 "type") = true)
         (schema_properties tool).

(** A schema that hangs together: what it requires it declares, its
    defaults sit on parameters it does not require, and each default has the
    type declared for its parameter. *)
Definition schema_consistent (tool : Tool.t) : bool :=
  forallb (λ key, bool_decide (key ∈ (schema_properties tool).*1)) (schema_required tool) &&
  forallb (λ kv, negb (bool_decide (kv.1 ∈ schema_required tool)))
          (schema_defaults tool) &&
  forallb (λ kv, match assoc kv.1 (schema_properties tool) with
                 | Some decl => has_type kv.2 (field decl "type")
                 | None => false
                 end)
          (schema_defaults tool).

(** The tool at a place of the catalogue, counted from 0. *)
Definition tool_at (i : nat) : Tool.t :=
  nth i handle_list_tools
      {| Tool.name := EmptyString; Tool.description := EmptyString;
         Tool.inputSchema := PNone |}.

(** * Properties *)

(** ** Running programs *)

Section Run.
Context {A B : Type}.
Implicit Types (w : remote) (h : list request).

Lemma run_bind w h (m : prog A) (f : A → prog B) :
  run w h (bind m f) =
  match run w h m with
  | (h', inl e) => (h', inl e)
  | (h', inr a) => run w h' (f a)
  end.
Proof.
  revert h. induction m as [a|e|r k IH]; intros h; simpl; auto.
Qed.

Lemma run_try_except w h (m : prog A) (handler : exn → prog A) :
  run w h (try_except m handler) =
  match run w h m with
  | (h', inl e) => run w h' (handler e)
  | (h', inr a) => (h', inr a)
  end.
Proof.
  revert h. induction m as [a|e|r k IH]; intros h; simpl; auto.
Qed.

End Run.

Lemma run_fetch w h url params :
  run w h (fetch url params) =
  (h ++ [Request url params], reply_outcome (w h (Request url params))).
Proof.
  unfold fetch, client_get, raise_for_status, response_json, reply_outcome.
  simpl. destruct (w h (Request url params)) as [msg|r]; simpl; [done|].
  destruct (is_success r); simpl; [|done].
  by destruct (body r).
Qed.

(** ** Programs that let remote failures through *)

Create HintDb propagate discriminated.
#[local] Hint Constructors propagates : propagate.

Lemma propagates_bind {A B} (P : A → Prop) (Q : B → Prop) m (f : A → prog B) :
  propagates P m → (∀ a, P a → propagates Q (f a)) → propagates Q (bind m f).
Proof.
  intros Hm Hf. induction Hm as [a Ha|e|r k Hfail Hok IH]; simpl.
  - by apply Hf.
  - constructor.
  - constructor.
    + intros rep e He. by rewrite (Hfail rep e He).
    + intros rep v Hv. by apply (IH rep v).
Qed.

Lemma propagates_fetch url params : propagates (λ _, True) (fetch url params).
Proof.
  unfold fetch, client_get. simpl. constructor.
  - intros [msg|r] e; unfold reply_outcome, raise_for_status, response_json; simpl.
    + by intros [= <-].
    + destruct (is_success r); simpl; [|by intros [= <-]].
      destruct (body r); [by intros [= <-]|done].
  - intros [msg|r] v; unfold reply_outcome, raise_for_status, response_json; simpl.
    + done.
    + destruct (is_success r); simpl; [|done].
      destruct (body r); simpl; [done|]. intros _. by constructor.
Qed.

(** What running such a program shows: the request that got a failed reply
    is the last one, and its exception is how the program ends. *)
Lemma propagates_run {A} (P : A → Prop) (m : prog A) w h :
  propagates P m →
  ∃ new res,
    run w h m = (h ++ new, res) ∧
    (∀ a, res = inr a → P a) ∧
    (∀ pre r post e,
        new = pre ++ r :: post →
        reply_outcome (w (h ++ pre) r) = inl e →
        post = [] ∧ res = inl e).
Proof.
  intros Hm. revert h. induction Hm as [a Ha|e|r k Hfail Hok IH]; intros h; simpl.
  - exists [], (inr a). rewrite app_nil_r. split_and!; [done|by intros ? [= <-]|].
    intros [|??] ????; discriminate.
  - exists [], (inl e). rewrite app_nil_r. split_and!; [done..|].
    intros [|??] ????; discriminate.
  - destruct (reply_outcome (w h r)) as [e|v] eqn:Hrep.
    + rewrite (Hfail _ _ Hrep). simpl.
      exists [r], (inl e). split_and!; [done..|].
      intros [|r' pre] r0 post e0 Hsplit Hout; simplify_eq/=.
      * rewrite app_nil_r in Hout. split; [done|congruence].
      * by destruct pre.
    + destruct (IH _ _ Hrep (h ++ [r])) as (new & res & Hrun & HP & Hlast).
      exists (r :: new), res. rewrite Hrun, <- app_assoc. split_and!; [done..|].
      intros [|r' pre] r0 post e0 Hsplit Hout; simplify_eq/=.
      * rewrite app_nil_r in Hout. congruence.
      * apply (Hlast pre r0 post e0); [done|]. by rewrite <- app_assoc.
Qed.

(** ** The dispatcher lets remote failures through and returns one text *)

Lemma propagates_getitem arguments key :
  propagates (λ _, True) (getitem arguments key).
Proof. unfold getitem. destruct (arguments !! key); by constructor. Qed.

Lemma propagates_py_get v key default :
  propagates (λ _, True) (py_get v key default).
Proof. destruct v; by constructor. Qed.

Lemma propagates_py_upper v : propagates (λ _, True) (py_upper v).
Proof. destruct v; by constructor. Qed.

Lemma propagates_py_lower v : propagates (λ _, True) (py_lower v).
Proof. destruct v; by constructor. Qed.

Lemma propagates_py_iter v : propagates (λ _, True) (py_iter v).
Proof. destruct v; by constructor. Qed.

#[local] Hint Resolve propagates_fetch propagates_getitem propagates_py_get
  propagates_py_upper propagates_py_lower propagates_py_iter : propagate.

Lemma one_text_result t : one_text (text_result t).
Proof. by exists t. Qed.

(** Walks through a program along its [bind]s and branches. *)
Ltac propagate :=
  lazymatch goal with
  | |- propagates _ (bind _ _) =>
      eapply (propagates_bind (λ _, True)); [propagate|intros ? _; propagate]
  | |- propagates _ (Ret _) =>
      constructor; first [done|apply one_text_result]
  | |- propagates _ (Raise _) => constructor
  | |- propagates _ (if _ then _ else _) => case_match; propagate
  | |- _ =>
      first
        [ by eauto with propagate
        | progress (unfold get_states, get_clients_by_state, get_client_by_name,
                     get_client_content, get_toc_children, get_codes_content,
                     search_munidocs); propagate ]
  end.

Lemma propagates_format_clients clients :
  propagates (λ _, True) (format_clients clients).
Proof.
  induction clients as [|client rest IH]; simpl; [by constructor|].
  pose proof IH. propagate.
Qed.

Lemma propagates_find_code_product products :
  propagates (λ _, True) (find_code_product products).
Proof.
  induction products as [|product rest IH]; simpl; [by constructor|].
  pose proof IH. propagate.
Qed.

#[local] Hint Resolve propagates_format_clients propagates_find_code_product
  : propagate.

Lemma propagates_dispatch name arguments :
  propagates one_text (dispatch name arguments).
Proof.
  unfold dispatch.
  repeat case_match;
    [ unfold tool_get_states_info
    | unfold tool_list_municipalities
    | unfold tool_get_municipality_info
    | unfold tool_get_code_structure
    | unfold tool_get_code_section
    | unfold tool_search_municipal_codes
    | unfold tool_get_municipality_url
    | ]; propagate.
Qed.

(** The dispatcher behind its [try]: the history is the one of the body,
    a returned value stays, a raised exception becomes the error text. *)
Lemma run_handle_call_tool name arguments w h :
  run w h (handle_call_tool name arguments) =
  match run w h (dispatch name arguments) with
  | (h', inl e) => (h', inr (text_result ("Error: " +:+ str_exn e)))
  | (h', inr out) => (h', inr out)
  end.
Proof.
  unfold handle_call_tool. rewrite run_try_except.
  by destruct (run w h (dispatch name arguments)) as [h' [e|out]].
Qed.

(** ** Exceptions stop at the dispatch boundary *)

(** C2. Whatever the tool name, the arguments and the remote service:
    an exception raised by the body of the dispatcher ends the call with the
    single text ["Error: " + str(e)]; when a request of the call is answered
    by a transport failure, a status outside 2xx or an undecodable body, no
    further request follows and the call ends with ["Error: "] and the
    client's message; and the call never ends with an exception. *)
Theorem exceptions_become_error_text name arguments w :
  (∀ h e,
      run w [] (dispatch name arguments) = (h, inl e) →
      run w [] (handle_call_tool name arguments) =
      (h, inr (text_result ("Error: " +:+ str_exn e)))) ∧
  (∀ pre r post e,
      (run w [] (handle_call_tool name arguments)).1 = pre ++ r :: post →
      reply_outcome (w pre r) = inl e →
      post = [] ∧
      (run w [] (handle_call_tool name arguments)).2 =
      inr (text_result ("Error: " +:+ str_exn e))) ∧
  (∀ e, (run w [] (handle_call_tool name arguments)).2 ≠ inl e).
Proof.
  rewrite run_handle_call_tool.
  destruct (propagates_run one_text (dispatch name arguments) w []
              (propagates_dispatch name arguments))
    as (new & res & Hrun & _ & Hlast).
  simpl in Hrun, Hlast. rewrite Hrun. split_and!.
  - intros h e [= <- ->]. done.
  - intros pre r post e Hsplit Hout.
    assert (new = pre ++ r :: post) as Hnew by (by destruct res).
    destruct (Hlast pre r post e Hnew Hout) as [-> ->]. done.
  - intros e. by destruct res.
Qed.

Lemma exceptions_become_error_text_witness :
  run server_error [] (handle_call_tool "get_states_info" {["state_abbr" := PStr "va"]}) =
  ([Request "https://api.municode.com/States/abbr" (Some [("stateAbbr", PStr "VA")])],
   inr (text_result "Error: Server error '500 Internal Server Error'")).
Proof.
  pose proof (exceptions_become_error_text
                "get_states_info" {["state_abbr" := PStr "va"]} server_error)
    as (_ & Hremote & _).
  specialize (Hremote [] (Request "https://api.municode.com/States/abbr"
                                  (Some [("stateAbbr", PStr "VA")])) []
                      (HTTPError "Server error '500 Internal Server Error'")
                      eq_refl eq_refl) as [_ Hout].
  apply injective_projections; [reflexivity|exact Hout].
Defined.

(** ** Every call returns one text block *)

(** C10. Whatever the tool name, the arguments and the remote service,
    [handle_call_tool] returns a list of exactly one block, of type
    ["text"]. *)
Theorem handle_call_tool_one_text name arguments w :
  ∃ t, (run w [] (handle_call_tool name arguments)).2 =
       inr [{| type := "text"; text := t |}].
Proof.
  rewrite run_handle_call_tool.
  destruct (propagates_run one_text (dispatch name arguments) w []
              (propagates_dispatch name arguments))
    as (new & res & Hrun & Hone & _).
  rewrite Hrun. destruct res as [e|out]; simpl.
  - by eexists.
  - destruct (Hone out eq_refl) as [t ->]. by exists t.
Qed.

(** ** Unknown tools *)

Lemma eqb_not_elem name known (names : list string) :
  name ∉ known :: names → String.eqb name known = false ∧ name ∉ names.
Proof.
  intros Hnot. split.
  - apply String.eqb_neq. intros ->. apply Hnot. by left.
  - intros Hin. apply Hnot. by right.
Qed.

(** C6. A name that is none of the seven registered ones yields the text
    ["Unknown tool: " + name]; nothing is raised and no request is sent. *)
Theorem unknown_tool name arguments w :
  name ∉ tool_names →
  run w [] (handle_call_tool name arguments) =
  ([], inr (text_result ("Unknown tool: " +:+ name))).
Proof.
  intros Hnot. unfold handle_call_tool, dispatch, tool_names in *.
  repeat (apply eqb_not_elem in Hnot as [-> Hnot]).
  reflexivity.
Qed.

Lemma unknown_tool_witness :
  run server_error [] (handle_call_tool "get_weather" ∅) =
  ([], inr (text_result "Unknown tool: get_weather")).
Proof.
  apply (unknown_tool "get_weather" ∅ server_error).
  unfold tool_names. intros Hin.
  repeat (apply elem_of_cons in Hin as [Heq|Hin]; [discriminate Heq|]).
  by apply elem_of_nil in Hin.
Defined.

(** ** Lower case and replacement *)

Lemma replace_one_char old new s :
  Str.replace (String old EmptyString) new s = replace_char old new s.
Proof.
  unfold Str.replace. induction s as [|c s IH]; [done|].
  simpl. rewrite IH. by destruct (bool_decide (old = c)).
Qed.

(** The two replacements on the lower-cased name, character by character. *)
Lemma formatted_name_slugify s :
  Str.replace "," "" (Str.replace " " "_" (Str.lower s)) = slugify s.
Proof.
  rewrite !replace_one_char. unfold Str.lower.
  induction s as [|c s IH]; [done|].
  simpl. rewrite <- IH.
  by destruct c as [[] [] [] [] [] [] [] []].
Qed.

(** ** The library URL *)

(** C5. [get_municipality_url] sends no request. Its text names the
    municipality and the state, then gives the library base, the lower-cased
    state, the slug of the name (lower-cased, spaces turned into underscores,
    commas removed) and [codes/code_of_ordinances]. The state of the first
    line is the upper-case form of the lower-cased state.
    ("Norfolk", "VA") gives
    [https://library.municode.com/va/norfolk/codes/code_of_ordinances], and
    "Example City, Town" has the slug [example_city_town]. *)
Theorem get_municipality_url_text :
  (∀ (m s : string) (arguments : gmap string pyval) w,
      arguments !! "municipality_name" = Some (PStr m) →
      arguments !! "state_abbr" = Some (PStr s) →
      run w [] (handle_call_tool "get_municipality_url" arguments) =
      ([], inr (text_result
                  ("Municode Library URL for " +:+ m +:+ ", " +:+
                   Str.upper (Str.lower s) +:+ ":" +:+ newline +:+
                   "https://library.municode.com" +:+ "/" +:+ Str.lower s +:+ "/" +:+
                   slugify m +:+ "/codes/code_of_ordinances")))) ∧
  (∀ w,
      run w [] (handle_call_tool "get_municipality_url"
                  (<["municipality_name" := PStr "Norfolk"]>
                     {["state_abbr" := PStr "VA"]})) =
      ([], inr (text_result
                  ("Municode Library URL for Norfolk, VA:" +:+ newline +:+
                   "https://library.municode.com/va/norfolk/codes/code_of_ordinances")))) ∧
  (∀ w,
      run w [] (handle_call_tool "get_municipality_url"
                  (<["municipality_name" := PStr "Example City, Town"]>
                     {["state_abbr" := PStr "TX"]})) =
      ([], inr (text_result
                  ("Municode Library URL for Example City, Town, TX:" +:+ newline +:+
                   "https://library.municode.com/tx/example_city_town/codes/code_of_ordinances")))) ∧
  Str.replace "," "" (Str.replace " " "_" (Str.lower "Example City, Town")) =
    "example_city_town".
Proof.
  split_and!; [|done..].
  intros m s arguments w Hm Hs.
  unfold handle_call_tool, dispatch, tool_get_municipality_url, getitem. simpl.
  rewrite Hm, Hs. simpl.
  by rewrite formatted_name_slugify.
Qed.

(** A name with a Latin-1 capital, the E with acute accent of SAINT-REMY. *)
Lemma get_municipality_url_text_witness :
  run server_error []
    (handle_call_tool "get_municipality_url"
       (<["municipality_name" := PStr ("SAINT-R" +:+ String "201" "MY, Town")]>
          {["state_abbr" := PStr "La"]})) =
  ([], inr (text_result
              ("Municode Library URL for SAINT-R" +:+ String "201" "MY, Town, LA:" +:+
               newline +:+
               "https://library.municode.com/la/saint-r" +:+ String "233" "my_town" +:+
               "/codes/code_of_ordinances"))).
Proof.
  apply (proj1 get_municipality_url_text
           ("SAINT-R" +:+ String "201" "MY, Town") "La" _ server_error);
    reflexivity.
Defined.

(** ** The requests of the client methods *)

Lemma run_get_client_by_name w h client_name state_abbr :
  run w h (get_client_by_name client_name (PStr state_abbr)) =
  (h ++ [clients_name_request client_name state_abbr],
   reply_outcome (w h (clients_name_request client_name state_abbr))).
Proof. apply run_fetch. Qed.

Lemma run_get_client_content w h client_id :
  run w h (get_client_content client_id) =
  (h ++ [client_content_request client_id],
   reply_outcome (w h (client_content_request client_id))).
Proof. apply run_fetch. Qed.

Lemma run_get_toc_children w h job_id product_id node_id :
  run w h (get_toc_children job_id product_id node_id) =
  (h ++ [toc_children_request job_id product_id node_id],
   reply_outcome (w h (toc_children_request job_id product_id node_id))).
Proof. apply run_fetch. Qed.

Lemma run_get_codes_content w h job_id product_id node_id :
  run w h (get_codes_content job_id product_id node_id) =
  (h ++ [codes_content_request job_id product_id node_id],
   reply_outcome (w h (codes_content_request job_id product_id node_id))).
Proof. apply run_fetch. Qed.

Lemma run_search_munidocs w h cid text page_num page_size titles_only is_advanced :
  run w h (search_munidocs cid text page_num page_size titles_only is_advanced) =
  (h ++ [search_request cid text page_num page_size titles_only is_advanced],
   reply_outcome
     (w h (search_request cid text page_num page_size titles_only is_advanced))).
Proof. apply run_fetch. Qed.

(** From here on programs are run through the lemmas above rather than
    unfolded. *)
Lemma bind_ret {A B} (a : A) (f : A → prog B) : bind (Ret a) f = f a.
Proof. reflexivity. Qed.

Lemma bind_raise {A B} (e : exn) (f : A → prog B) : bind (Raise e) f = Raise e.
Proof. reflexivity. Qed.

Lemma run_ret {A} w h (a : A) : run w h (Ret a) = (h, inr a).
Proof. reflexivity. Qed.

Lemma run_raise {A} w h (e : exn) : run w h (Raise e : prog A) = (h, inl e).
Proof. reflexivity. Qed.

#[global] Arguments bind : simpl never.
#[global] Arguments run : simpl never.
#[global] Arguments get_client_by_name : simpl never.
#[global] Arguments get_client_content : simpl never.
#[global] Arguments get_toc_children : simpl never.
#[global] Arguments get_codes_content : simpl never.
#[global] Arguments search_munidocs : simpl never.
#[global] Arguments json_dumps : simpl never.
#[global] Arguments py_str : simpl never.

Ltac run_step :=
  first
    [ rewrite run_bind
    | rewrite run_get_client_by_name
    | rewrite run_get_client_content
    | rewrite run_get_toc_children
    | rewrite run_get_codes_content
    | rewrite run_search_munidocs
    | rewrite bind_ret
    | rewrite bind_raise
    | rewrite run_ret
    | rewrite run_raise
    | progress simpl ].

(** Splits on the outcome of the reply the goal waits for. *)
Ltac destruct_outcome :=
  match goal with
  | |- context [reply_outcome ?rep] =>
      destruct (reply_outcome rep); repeat run_step; done
  end.

(** Enters the branch of a tool whose name is a literal. *)
Ltac enter_tool :=
  rewrite run_handle_call_tool;
  unfold dispatch; simpl String.eqb; cbv iota;
  unfold tool_get_states_info, tool_list_municipalities,
    tool_get_municipality_info, tool_get_code_structure,
    tool_get_code_section, tool_search_municipal_codes,
    tool_get_municipality_url, getitem.

(** ** A municipality without identifier *)

Section NoIdentifier.
Context (arguments : gmap string pyval) (w : remote).
Context (m : pyval) (s : string) (d : list (string * pyval)).
Hypothesis Hname : arguments !! "municipality_name" = Some m.
Hypothesis Hstate : arguments !! "state_abbr" = Some (PStr s).

(** The lookup answers with a record whose [ClientID] is missing or falsy. *)
Hypothesis Hreply :
  reply_outcome (w [] (clients_name_request m (Str.upper s))) = inr (PDict d).
Hypothesis Hfalsy : truthy (dict_get d "ClientID") = false.

Lemma no_identifier_info :
  run w [] (handle_call_tool "get_municipality_info" arguments) =
  ([clients_name_request m (Str.upper s)],
   inr (text_result (json_dumps (PDict [("client_info", PDict d)])))).
Proof using All.
  enter_tool. rewrite Hname, Hstate. repeat run_step.
  rewrite Hreply. repeat run_step. unfold dict_get in Hfalsy.
  rewrite Hfalsy. by repeat run_step.
Qed.

Lemma no_identifier_structure :
  run w [] (handle_call_tool "get_code_structure" arguments) =
  ([clients_name_request m (Str.upper s)],
   inr (text_result (not_found_text m (Str.upper s)))).
Proof using All.
  enter_tool. rewrite Hname, Hstate. repeat run_step.
  rewrite Hreply. repeat run_step. unfold dict_get in Hfalsy.
  rewrite Hfalsy. by repeat run_step.
Qed.

Lemma no_identifier_section node_id :
  arguments !! "node_id" = Some node_id →
  run w [] (handle_call_tool "get_code_section" arguments) =
  ([clients_name_request m (Str.upper s)],
   inr (text_result (not_found_text m (Str.upper s)))).
Proof using All.
  intros Hnode. enter_tool. rewrite Hname, Hstate, Hnode. repeat run_step.
  rewrite Hreply. repeat run_step. unfold dict_get in Hfalsy.
  rewrite Hfalsy. by repeat run_step.
Qed.

Lemma no_identifier_search search_query :
  arguments !! "search_query" = Some search_query →
  run w [] (handle_call_tool "search_municipal_codes" arguments) =
  ([clients_name_request m (Str.upper s)],
   inr (text_result (not_found_text m (Str.upper s)))).
Proof using All.
  intros Hquery. enter_tool. rewrite Hname, Hstate, Hquery. repeat run_step.
  rewrite Hreply. repeat run_step. unfold dict_get in Hfalsy.
  rewrite Hfalsy. by repeat run_step.
Qed.
End NoIdentifier.

(** ** Texts that contain a given text *)

Lemma app_cons c (s t : string) : String c s +:+ t = String c (s +:+ t).
Proof. reflexivity. Qed.

Lemma contains_cons sub c s :
  Str.contains sub (String c s) = Str.startswith sub (String c s) || Str.contains sub s.
Proof. reflexivity. Qed.

Lemma startswith_app p s : Str.startswith p (p +:+ s) = true.
Proof.
  induction p as [|c p IH]; [done|].
  rewrite app_cons. simpl. rewrite IH. by rewrite bool_decide_eq_true_2.
Qed.

Lemma contains_prefix sub s : Str.contains sub (sub +:+ s) = true.
Proof.
  destruct (sub +:+ s) eqn:Heq.
  - destruct sub; [done|discriminate].
  - rewrite contains_cons, <- Heq, startswith_app. done.
Qed.

Lemma contains_app sub before after :
  Str.contains sub (before +:+ sub +:+ after) = true.
Proof.
  induction before as [|c before IH]; [exact (contains_prefix sub after)|].
  rewrite app_cons, contains_cons, IH. apply orb_true_r.
Qed.

Lemma app_empty_r (s : string) : s +:+ "" = s.
Proof. induction s as [|c s IH]; [done|]. by rewrite app_cons, IH. Qed.

Lemma app_string_assoc (s t u : string) : (s +:+ t) +:+ u = s +:+ t +:+ u.
Proof. induction s as [|c s IH]; [done|]. by rewrite !app_cons, IH. Qed.

Lemma not_found_text_contains (m s : string) :
  Str.contains m (not_found_text (PStr m) s) = true ∧
  Str.contains s (not_found_text (PStr m) s) = true.
Proof.
  unfold not_found_text. split.
  - apply contains_app.
  - replace ("Municipality '" +:+ py_str (PStr m) +:+ "' not found in " +:+ s)
      with (("Municipality '" +:+ py_str (PStr m) +:+ "' not found in ") +:+ s +:+ "").
    + apply contains_app.
    + by rewrite app_empty_r, !app_string_assoc.
Qed.

(** ** C1 and C8: the lookup gives no identifier *)

(** C1, as amended. When the lookup answers with a record that has no
    truthy [ClientID], each of the four tools stops after that one request.
    [get_code_structure], [get_code_section] (given a [node_id]) and
    [search_municipal_codes] (given a [search_query]) return
    ["Municipality '<name>' not found in <STATE>"], which contains the name
    and the upper-cased state; [get_municipality_info] returns the JSON
    text of [{"client_info": <the record>}]. *)
Theorem municipality_not_found (arguments : gmap string pyval) w (m s : string) d :
  arguments !! "municipality_name" = Some (PStr m) →
  arguments !! "state_abbr" = Some (PStr s) →
  reply_outcome (w [] (clients_name_request (PStr m) (Str.upper s))) = inr (PDict d) →
  truthy (dict_get d "ClientID") = false →
  let lookup := clients_name_request (PStr m) (Str.upper s) in
  let not_found := "Municipality '" +:+ m +:+ "' not found in " +:+ Str.upper s in
  run w [] (handle_call_tool "get_code_structure" arguments) =
    ([lookup], inr (text_result not_found)) ∧
  (is_Some (arguments !! "node_id") →
   run w [] (handle_call_tool "get_code_section" arguments) =
     ([lookup], inr (text_result not_found))) ∧
  (is_Some (arguments !! "search_query") →
   run w [] (handle_call_tool "search_municipal_codes" arguments) =
     ([lookup], inr (text_result not_found))) ∧
  run w [] (handle_call_tool "get_municipality_info" arguments) =
    ([lookup], inr (text_result (json_dumps (PDict [("client_info", PDict d)])))) ∧
  Str.contains m not_found = true ∧
  Str.contains (Str.upper s) not_found = true.
Proof.
  intros Hname Hstate Hreply Hfalsy lookup not_found. split_and!.
  - by apply no_identifier_structure with d.
  - intros [node_id Hnode]. by apply no_identifier_section with d node_id.
  - intros [query Hquery]. by apply no_identifier_search with d query.
  - by apply no_identifier_info.
  - apply (not_found_text_contains m (Str.upper s)).
  - apply (not_found_text_contains m (Str.upper s)).
Qed.

Lemma municipality_not_found_witness :
  run knows_nobody [] (handle_call_tool "get_code_structure" norfolk_va) =
  ([clients_name_request (PStr "Norfolk") "VA"],
   inr (text_result "Municipality 'Norfolk' not found in VA")).
Proof.
  apply (municipality_not_found norfolk_va knows_nobody "Norfolk" "va"
           [("ClientID", PInt 0); ("ClientName", PNone)]);
    reflexivity.
Defined.

(** C1 as stated fails for [get_municipality_info]: on such a lookup its
    text is the JSON of the record, which holds neither the name of the
    municipality nor the state. *)
Lemma municipality_info_no_not_found_text :
  let record := PDict [("ClientID", PInt 0); ("ClientName", PNone)] in
  let t := json_dumps (PDict [("client_info", record)]) in
  reply_outcome (knows_nobody [] (clients_name_request (PStr "Norfolk") "VA")) =
    inr record ∧
  truthy (field record "ClientID") = false ∧
  run knows_nobody [] (handle_call_tool "get_municipality_info" norfolk_va) =
    ([clients_name_request (PStr "Norfolk") "VA"], inr (text_result t)) ∧
  Str.contains "Norfolk" t = false ∧
  Str.contains "VA" t = false ∧
  Str.contains "not found" t = false.
Proof.
  split_and!; reflexivity.
Qed.

(** C8. A [ClientID] that is present but falsy counts as no identifier:
    [get_municipality_info] sends no product request and returns the JSON
    text of the lookup result alone, under [client_info]; the three other
    tools return the not-found text. The number 0, the empty string and
    [None] are such values. *)
Theorem falsy_client_id_is_not_found
    (arguments : gmap string pyval) w (m : pyval) (s : string) d client_id :
  arguments !! "municipality_name" = Some m →
  arguments !! "state_abbr" = Some (PStr s) →
  reply_outcome (w [] (clients_name_request m (Str.upper s))) = inr (PDict d) →
  assoc "ClientID" d = Some client_id →
  truthy client_id = false →
  let lookup := clients_name_request m (Str.upper s) in
  let not_found := "Municipality '" +:+ py_str m +:+ "' not found in " +:+ Str.upper s in
  run w [] (handle_call_tool "get_municipality_info" arguments) =
    ([lookup], inr (text_result (json_dumps (PDict [("client_info", PDict d)])))) ∧
  run w [] (handle_call_tool "get_code_structure" arguments) =
    ([lookup], inr (text_result not_found)) ∧
  (is_Some (arguments !! "node_id") →
   run w [] (handle_call_tool "get_code_section" arguments) =
     ([lookup], inr (text_result not_found))) ∧
  (is_Some (arguments !! "search_query") →
   run w [] (handle_call_tool "search_municipal_codes" arguments) =
     ([lookup], inr (text_result not_found))) ∧
  truthy (PInt 0) = false ∧ truthy (PStr "") = false ∧ truthy PNone = false.
Proof.
  intros Hname Hstate Hreply Hid Hfalsy lookup not_found.
  assert (truthy (dict_get d "ClientID") = false) as Hget
    by (unfold dict_get; by rewrite Hid).
  split_and!; try reflexivity.
  - by apply no_identifier_info.
  - by apply no_identifier_structure with d.
  - intros [node_id Hnode]. by apply no_identifier_section with d node_id.
  - intros [query Hquery]. by apply no_identifier_search with d query.
Qed.

Lemma falsy_client_id_is_not_found_witness :
  run empty_identifier [] (handle_call_tool "get_municipality_info" norfolk_va) =
  ([clients_name_request (PStr "Norfolk") "VA"],
   inr (text_result
          (json_dumps
             (PDict [("client_info",
                      PDict [("ClientName", PStr "Norfolk"); ("ClientID", PStr "")])])))).
Proof.
  apply (falsy_client_id_is_not_found norfolk_va empty_identifier (PStr "Norfolk") "va"
           [("ClientName", PStr "Norfolk"); ("ClientID", PStr "")] (PStr ""));
    reflexivity.
Defined.

(** ** Choosing the code of ordinances *)

(** One turn of the loop on a product record named [n]. *)
Lemma find_code_product_step p n rest :
  product_name p = Some n →
  find_code_product (p :: rest) =
  if Str.contains "code" (Str.lower n) then Ret p else find_code_product rest.
Proof.
  unfold product_name. destruct p as [| | | | |l|dp]; try done.
  destruct (assoc "ProductName" dp) as [[| | | |n'| |]|] eqn:Hname; try done.
  - intros [= ->]. simpl. by rewrite Hname.
  - intros [= <-]. simpl. by rewrite Hname.
Qed.

(** The loop returns the first product that names a code. *)
Lemma find_code_product_first before p after :
  Forall (λ q, passed_over q = true) before →
  names_code p = true →
  find_code_product (before ++ p :: after) = Ret p.
Proof.
  intros Hbefore Hp. induction Hbefore as [|q before Hq _ IH].
  - unfold names_code in Hp. destruct (product_name p) as [n|] eqn:Hn; [|done].
    by rewrite app_nil_l, (find_code_product_step p n), Hp.
  - unfold passed_over in Hq. destruct (product_name q) as [n|] eqn:Hn; [|done].
    apply negb_true_iff in Hq.
    by rewrite <- app_comm_cons, (find_code_product_step q n), Hq.
Qed.

Lemma names_code_truthy p : names_code p = true → truthy p = true.
Proof.
  unfold names_code, product_name.
  destruct p as [| | | | |l|[|[k v] dp]]; try done.
Qed.

Lemma names_code_field p key :
  names_code p = true → py_get p key PNone = Ret (field p key).
Proof.
  unfold names_code, product_name. by destruct p.
Qed.

Section CodeChain.
Context (arguments : gmap string pyval) (w : remote).
Context (m : pyval) (s : string) (d : list (string * pyval)) (client_id : pyval).
Context (before : list pyval) (p : pyval) (after : list pyval).
Hypothesis Hname : arguments !! "municipality_name" = Some m.
Hypothesis Hstate : arguments !! "state_abbr" = Some (PStr s).

(** The lookup gives an identifier. *)
Hypothesis Hreply :
  reply_outcome (w [] (clients_name_request m (Str.upper s))) = inr (PDict d).
Hypothesis Hid : assoc "ClientID" d = Some client_id.
Hypothesis Htruthy : truthy client_id = true.

(** The products come as a list in which [p] is the first to name a code. *)
Hypothesis Hproducts :
  reply_outcome (w [clients_name_request m (Str.upper s)]
                   (client_content_request client_id)) =
  inr (PList (before ++ p :: after)).
Hypothesis Hbefore : Forall (λ q, passed_over q = true) before.
Hypothesis Hp : names_code p = true.

Lemma run_code_structure :
  let toc := toc_children_request (field p "Id") (field p "ProductID")
               (args_get arguments "node_id" (PStr "10121")) in
  let h := [clients_name_request m (Str.upper s);
            client_content_request client_id] in
  run w [] (handle_call_tool "get_code_structure" arguments) =
  (h ++ [toc],
   inr (text_result
          match reply_outcome (w h toc) with
          | inl e => "Error: " +:+ str_exn e
          | inr v =>
              "Code structure for " +:+ py_str m +:+ ", " +:+ Str.upper s +:+
              ":" +:+ newline +:+ newline +:+ json_dumps v
          end)).
Proof using All.
  intros toc h. subst toc h.
  enter_tool. rewrite Hname, Hstate. repeat run_step.
  rewrite Hreply. repeat run_step. rewrite Hid, Htruthy. repeat run_step.
  rewrite Hproducts. repeat run_step.
  rewrite (find_code_product_first _ _ _ Hbefore Hp). repeat run_step.
  rewrite (names_code_truthy _ Hp). repeat run_step.
  rewrite !(names_code_field _ _ Hp). repeat run_step.
  destruct_outcome.
Qed.

Lemma run_code_section node_id :
  arguments !! "node_id" = Some node_id →
  let content := codes_content_request (field p "Id") (field p "ProductID") node_id in
  let h := [clients_name_request m (Str.upper s);
            client_content_request client_id] in
  run w [] (handle_call_tool "get_code_section" arguments) =
  (h ++ [content],
   inr (text_result
          match reply_outcome (w h content) with
          | inl e => "Error: " +:+ str_exn e
          | inr v =>
              "Content for node " +:+ py_str node_id +:+ " in " +:+ py_str m +:+
              ", " +:+ Str.upper s +:+ ":" +:+ newline +:+ newline +:+ json_dumps v
          end)).
Proof using All.
  intros Hnode content h. subst content h.
  enter_tool. rewrite Hname, Hstate, Hnode. repeat run_step.
  rewrite Hreply. repeat run_step. rewrite Hid, Htruthy. repeat run_step.
  rewrite Hproducts. repeat run_step.
  rewrite (find_code_product_first _ _ _ Hbefore Hp). repeat run_step.
  rewrite (names_code_truthy _ Hp). repeat run_step.
  rewrite !(names_code_field _ _ Hp). repeat run_step.
  destruct_outcome.
Qed.
End CodeChain.

(** ** C3: the first product that names a code drives the call *)

Lemma code_chain_requests
    (arguments : gmap string pyval) w m s client_id p :
  finds_code_product arguments w m s client_id p →
  (run w [] (handle_call_tool "get_code_structure" arguments)).1 =
    [clients_name_request m (Str.upper s);
     client_content_request client_id;
     toc_children_request (field p "Id") (field p "ProductID")
       (args_get arguments "node_id" (PStr "10121"))] ∧
  (∀ node_id,
      arguments !! "node_id" = Some node_id →
      (run w [] (handle_call_tool "get_code_section" arguments)).1 =
        [clients_name_request m (Str.upper s);
         client_content_request client_id;
         codes_content_request (field p "Id") (field p "ProductID") node_id]).
Proof.
  intros (Hname & Hstate & d & before & after & Hreply & Hid & Htruthy &
          Hproducts & Hbefore & Hp).
  split.
  - by rewrite (run_code_structure arguments w m s d client_id before p after).
  - intros node_id Hnode.
    by rewrite (run_code_section arguments w m s d client_id before p after
                  Hname Hstate Hreply Hid Htruthy Hproducts Hbefore Hp node_id Hnode).
Qed.

(** C3, as amended. Among the products fetched for a municipality, the
    first whose [ProductName] contains "code" in any letter case is the one
    selected, however many others match after it, provided the loop can read
    every entry before it: each is a record whose [ProductName] is text or
    absent. The [Id] and [ProductID] of that product are then the [jobId]
    and [productId] of the request that follows, the table-of-contents
    request of [get_code_structure] and the content request of
    [get_code_section]. *)
Theorem first_code_product_selected
    (arguments : gmap string pyval) w m s client_id p :
  finds_code_product arguments w m s client_id p →
  (run w [] (handle_call_tool "get_code_structure" arguments)).1 =
    [clients_name_request m (Str.upper s);
     client_content_request client_id;
     toc_children_request (field p "Id") (field p "ProductID")
       (args_get arguments "node_id" (PStr "10121"))] ∧
  (∀ node_id,
      arguments !! "node_id" = Some node_id →
      (run w [] (handle_call_tool "get_code_section" arguments)).1 =
        [clients_name_request m (Str.upper s);
         client_content_request client_id;
         codes_content_request (field p "Id") (field p "ProductID") node_id]).
Proof. apply code_chain_requests. Qed.

Lemma norfolk_finds_code_product arguments :
  arguments !! "municipality_name" = Some (PStr "Norfolk") →
  arguments !! "state_abbr" = Some (PStr "va") →
  finds_code_product arguments norfolk_service (PStr "Norfolk") "va" (PInt 7)
    (PDict [("ProductName", PStr "CODE of Ordinances"); ("Id", PInt 11);
            ("ProductID", PInt 22)]).
Proof.
  intros Hname Hstate. split_and!; [done..|].
  exists [("ClientID", PInt 7); ("ClientName", PStr "Norfolk")],
    (take 1 two_codes), (drop 2 two_codes).
  split_and!; try reflexivity. by repeat constructor.
Defined.

Lemma first_code_product_selected_witness :
  (run norfolk_service [] (handle_call_tool "get_code_structure" norfolk_va)).1 =
  [clients_name_request (PStr "Norfolk") "VA";
   client_content_request (PInt 7);
   toc_children_request (PInt 11) (PInt 22) (PStr "10121")].
Proof.
  apply (first_code_product_selected norfolk_va norfolk_service
           (PStr "Norfolk") "va" (PInt 7)
           (PDict [("ProductName", PStr "CODE of Ordinances"); ("Id", PInt 11);
                   ("ProductID", PInt 22)])).
  apply norfolk_finds_code_product; reflexivity.
Defined.

(** C3 as stated fails when an entry the loop cannot read comes first. Here
    two products name a code, after a record whose [ProductName] is [null]:
    the loop raises on that record, neither product is selected, and both
    tools end after the product request with an error text. *)
Lemma null_name_hides_code_products :
  let products :=
    PDict [("ProductName", PNone); ("Id", PInt 1); ("ProductID", PInt 10)]
    :: drop 1 two_codes in
  let h := [clients_name_request (PStr "Norfolk") "VA";
            client_content_request (PInt 7)] in
  let error := "Error: 'NoneType' object has no attribute 'lower'" in
  reply_outcome (null_name_first [clients_name_request (PStr "Norfolk") "VA"]
                   (client_content_request (PInt 7))) = inr (PList products) ∧
  List.map names_code products = [false; true; true] ∧
  run null_name_first [] (handle_call_tool "get_code_structure" norfolk_va) =
    (h, inr (text_result error)) ∧
  run null_name_first []
    (handle_call_tool "get_code_section" (<["node_id" := PStr "CH1"]> norfolk_va)) =
    (h, inr (text_result error)).
Proof.
  split_and!; reflexivity.
Qed.

(** ** C7: the node id *)

(** Where [node_id] is absent, [get_code_structure] is the program it is
    with [node_id] set to "10121". *)
Lemma code_structure_default (arguments : gmap string pyval) :
  arguments !! "node_id" = None →
  tool_get_code_structure arguments =
  tool_get_code_structure (<["node_id" := PStr "10121"]> arguments).
Proof.
  intros Hnode. unfold tool_get_code_structure, getitem, args_get.
  rewrite lookup_insert_eq, !lookup_insert_ne, Hnode by done. done.
Qed.

(** C7. [get_code_structure] without [node_id] behaves as with the node id
    "10121", and that is the [nodeId] of its table-of-contents request.
    [get_code_section] has no default: without [node_id] it sends nothing
    and reports the missing key, and with one its content request carries
    exactly that value. *)
Theorem node_id_default_and_mandatory (arguments : gmap string pyval) w :
  (arguments !! "node_id" = None →
   run w [] (handle_call_tool "get_code_structure" arguments) =
   run w [] (handle_call_tool "get_code_structure"
               (<["node_id" := PStr "10121"]> arguments))) ∧
  (∀ m s client_id p,
      arguments !! "node_id" = None →
      finds_code_product arguments w m s client_id p →
      (run w [] (handle_call_tool "get_code_structure" arguments)).1 =
        [clients_name_request m (Str.upper s);
         client_content_request client_id;
         toc_children_request (field p "Id") (field p "ProductID") (PStr "10121")]) ∧
  (∀ m s,
      arguments !! "municipality_name" = Some m →
      arguments !! "state_abbr" = Some (PStr s) →
      arguments !! "node_id" = None →
      run w [] (handle_call_tool "get_code_section" arguments) =
        ([], inr (text_result "Error: 'node_id'"))) ∧
  (∀ m s client_id p node_id,
      arguments !! "node_id" = Some node_id →
      finds_code_product arguments w m s client_id p →
      (run w [] (handle_call_tool "get_code_section" arguments)).1 =
        [clients_name_request m (Str.upper s);
         client_content_request client_id;
         codes_content_request (field p "Id") (field p "ProductID") node_id]).
Proof.
  split_and!.
  - intros Hnode. unfold handle_call_tool, dispatch. simpl String.eqb. cbv iota.
    by rewrite (code_structure_default _ Hnode).
  - intros m s client_id p Hnode Hfinds.
    destruct (code_chain_requests arguments w m s client_id p Hfinds)
      as [Hstructure _].
    rewrite Hstructure. unfold args_get. by rewrite Hnode.
  - intros m s Hname Hstate Hnode.
    enter_tool. rewrite Hname, Hstate, Hnode. by repeat run_step.
  - intros m s client_id p node_id Hnode Hfinds.
    destruct (code_chain_requests arguments w m s client_id p Hfinds)
      as [_ Hsection].
    by apply Hsection.
Qed.

Lemma node_id_default_and_mandatory_witness :
  (run norfolk_service [] (handle_call_tool "get_code_structure" norfolk_va)).1 =
    [clients_name_request (PStr "Norfolk") "VA";
     client_content_request (PInt 7);
     toc_children_request (PInt 11) (PInt 22) (PStr "10121")] ∧
  run norfolk_service [] (handle_call_tool "get_code_section" norfolk_va) =
    ([], inr (text_result "Error: 'node_id'")).
Proof.
  pose proof (node_id_default_and_mandatory norfolk_va norfolk_service)
    as (_ & Hdefault & Hmissing & _).
  split.
  - apply (Hdefault (PStr "Norfolk") "va" (PInt 7)
             (PDict [("ProductName", PStr "CODE of Ordinances"); ("Id", PInt 11);
                     ("ProductID", PInt 22)])); [reflexivity|].
    apply norfolk_finds_code_product; reflexivity.
  - apply (Hmissing (PStr "Norfolk") "va"); reflexivity.
Defined.

(** ** C4: the search query *)

Section Search.
Context (arguments : gmap string pyval) (w : remote).
Context (m : pyval) (s : string) (d : list (string * pyval)).
Context (client_id search_query : pyval).
Hypothesis Hname : arguments !! "municipality_name" = Some m.
Hypothesis Hstate : arguments !! "state_abbr" = Some (PStr s).
Hypothesis Hquery : arguments !! "search_query" = Some search_query.
Hypothesis Hreply :
  reply_outcome (w [] (clients_name_request m (Str.upper s))) = inr (PDict d).
Hypothesis Hid : assoc "ClientID" d = Some client_id.
Hypothesis Htruthy : truthy client_id = true.

Lemma run_search_municipal_codes :
  let search :=
    search_request client_id search_query
      (args_get arguments "page_number" (PInt 1))
      (args_get arguments "page_size" (PInt 10))
      (args_get arguments "titles_only" (PBool false))
      (PBool false) in
  let h := [clients_name_request m (Str.upper s)] in
  run w [] (handle_call_tool "search_municipal_codes" arguments) =
  (h ++ [search],
   inr (text_result
          match reply_outcome (w h search) with
          | inl e => "Error: " +:+ str_exn e
          | inr v =>
              "Search results for '" +:+ py_str search_query +:+ "' in " +:+
              py_str m +:+ ", " +:+ Str.upper s +:+ ":" +:+
              newline +:+ newline +:+ json_dumps v
          end)).
Proof using All.
  intros search h. subst search h.
  enter_tool. rewrite Hname, Hstate, Hquery. repeat run_step.
  rewrite Hreply. repeat run_step. rewrite Hid, Htruthy. repeat run_step.
  destruct_outcome.
Qed.
End Search.

(** C4. Every call of [search_munidocs] sends one request, to [/search],
    whose query holds the six constants [isAutocomplete=False],
    [mode="standard"], [sort=0], [fragmentSize=200], [contentTypeId=""] and
    [stateId=0] next to the six values of the caller. When
    [search_municipal_codes] is called with [titles_only=True] and the
    lookup gives an identifier, its search request has [titlesOnly=True],
    [isAdvanced=False] and [sort=0]. *)
Theorem search_query_constants w :
  (∀ h client_id search_text page_num page_size titles_only is_advanced,
      ∃ query,
        (run w h (search_munidocs client_id search_text page_num page_size
                    titles_only is_advanced)).1 =
          h ++ [Request "https://api.municode.com/search" (Some query)] ∧
        assoc "isAutocomplete" query = Some (PBool false) ∧
        assoc "mode" query = Some (PStr "standard") ∧
        assoc "sort" query = Some (PInt 0) ∧
        assoc "fragmentSize" query = Some (PInt 200) ∧
        assoc "contentTypeId" query = Some (PStr "") ∧
        assoc "stateId" query = Some (PInt 0) ∧
        assoc "clientId" query = Some client_id ∧
        assoc "searchText" query = Some search_text ∧
        assoc "pageNum" query = Some page_num ∧
        assoc "pageSize" query = Some page_size ∧
        assoc "titlesOnly" query = Some titles_only ∧
        assoc "isAdvanced" query = Some is_advanced ∧
        length query = 12%nat) ∧
  (∀ (arguments : gmap string pyval) m s d client_id search_query,
      arguments !! "municipality_name" = Some m →
      arguments !! "state_abbr" = Some (PStr s) →
      arguments !! "search_query" = Some search_query →
      arguments !! "titles_only" = Some (PBool true) →
      reply_outcome (w [] (clients_name_request m (Str.upper s))) = inr (PDict d) →
      assoc "ClientID" d = Some client_id →
      truthy client_id = true →
      ∃ query,
        (run w [] (handle_call_tool "search_municipal_codes" arguments)).1 =
          [clients_name_request m (Str.upper s);
           Request "https://api.municode.com/search" (Some query)] ∧
        assoc "titlesOnly" query = Some (PBool true) ∧
        assoc "isAdvanced" query = Some (PBool false) ∧
        assoc "sort" query = Some (PInt 0) ∧
        assoc "clientId" query = Some client_id ∧
        assoc "searchText" query = Some search_query).
Proof.
  split.
  - intros. rewrite run_search_munidocs. eexists. split_and!; reflexivity.
  - intros arguments m s d client_id search_query
      Hname Hstate Hquery Htitles Hreply Hid Htruthy.
    rewrite (run_search_municipal_codes arguments w m s d client_id search_query)
      by done.
    unfold args_get. rewrite Htitles.
    eexists. split_and!; reflexivity.
Qed.

Lemma search_query_constants_witness :
  ∃ query,
    (run norfolk_service [] (handle_call_tool "search_municipal_codes" norfolk_titles)).1 =
      [clients_name_request (PStr "Norfolk") "VA";
       Request "https://api.municode.com/search" (Some query)] ∧
    assoc "titlesOnly" query = Some (PBool true) ∧
    assoc "isAdvanced" query = Some (PBool false) ∧
    assoc "sort" query = Some (PInt 0) ∧
    assoc "clientId" query = Some (PInt 7) ∧
    assoc "searchText" query = Some (PStr "zoning").
Proof.
  apply (proj2 (search_query_constants norfolk_service) norfolk_titles
           (PStr "Norfolk") "va"
           [("ClientID", PInt 7); ("ClientName", PStr "Norfolk")]
           (PInt 7) (PStr "zoning"));
    reflexivity.
Defined.


(** ** Request histories *)

(** The history only grows. *)
Lemma run_extends {A} w h (m : prog A) : h `prefix_of` (run w h m).1.
Proof.
  revert h. induction m as [a|e|r k IH]; intros h.
  - rewrite run_ret. done.
  - rewrite run_raise. done.
  - unfold run; fold (@run A).
    etransitivity; [|apply IH]. by apply prefix_app_r.
Qed.

(** The history of a call is the one of the body of its [try]. *)
Lemma history_handle_call_tool name arguments w :
  (run w [] (handle_call_tool name arguments)).1 =
  (run w [] (dispatch name arguments)).1.
Proof.
  rewrite run_handle_call_tool.
  by destruct (run w [] (dispatch name arguments)) as [h [e|out]].
Qed.

(** The history of a [bind] whose first part is a request. *)
Lemma history_bind {A B} w h (m : prog A) (f : A → prog B) :
  (run w h (bind m f)).1 =
  match run w h m with
  | (h', inl e) => h'
  | (h', inr a) => (run w h' (f a)).1
  end.
Proof. rewrite run_bind. by destruct (run w h m) as [h' [e|a]]. Qed.

(** A program that starts with a request has it first in its history. *)
Lemma history_fetch_first {B} w url params (k : pyval → prog B) :
  ∃ rest, (run w [] (bind (fetch url params) k)).1 = Request url params :: rest.
Proof.
  rewrite history_bind, run_fetch.
  destruct (reply_outcome _) as [e|v]; [by exists []|].
  destruct (run_extends w ([] ++ [Request url params]) (k v)) as [rest ->].
  by exists rest.
Qed.

(** ** C9: the letter case of the state code *)

Lemma app_empty_l (s : string) : "" +:+ s = s.
Proof. reflexivity. Qed.

Lemma upper_char_isascii c :
  (N_of_ascii c <? 128)%N = true →
  ∃ c', Str.upper_char c = String c' EmptyString ∧ Str.lower_char c' = Str.lower_char c.
Proof.
  destruct c as [[] [] [] [] [] [] [] []]; intros Hc; try discriminate Hc;
    eexists; split; reflexivity.
Qed.

(** On ASCII text the lower-case form can be read off the upper-case form. *)
Lemma lower_upper_isascii s :
  Str.isascii s = true → Str.lower (Str.upper s) = Str.lower s.
Proof.
  induction s as [|c s IH]; [done|].
  simpl Str.isascii. intros [Hc Hs]%andb_true_iff.
  destruct (upper_char_isascii c Hc) as (c' & Hup & Hlow).
  simpl Str.upper. rewrite Hup, app_cons, app_empty_l.
  unfold Str.lower in *. simpl Str.map. by rewrite Hlow, IH.
Qed.

(** A call reads its state through [upper], and through [lower] in
    [get_municipality_url]. *)
Lemma same_state_same_call name (arguments : gmap string pyval) w s1 s2 :
  (name ≠ "get_municipality_url" → Str.upper s1 = Str.upper s2) →
  (name = "get_municipality_url" → Str.lower s1 = Str.lower s2) →
  call_in_state name arguments w s1 = call_in_state name arguments w s2.
Proof.
  intros Hupper Hlower. unfold call_in_state, handle_call_tool. f_equal. f_equal.
  unfold dispatch.
  destruct (decide (name = "get_municipality_url")) as [->|Hne].
  - specialize (Hlower eq_refl). clear Hupper. simpl String.eqb. cbv iota.
    unfold tool_get_municipality_url, getitem.
    repeat first
      [ rewrite lookup_insert_eq
      | rewrite lookup_insert_ne by done
      | rewrite bind_ret
      | rewrite bind_raise
      | progress simpl py_lower
      | match goal with
        | |- context [arguments !! ?k] => destruct (arguments !! k)
        end ];
      rewrite ?Hlower; reflexivity.
  - specialize (Hupper Hne). clear Hlower.
    repeat case_match; try reflexivity;
      try (exfalso; apply Hne; by apply String.eqb_eq);
      unfold tool_get_states_info, tool_list_municipalities,
        tool_get_municipality_info, tool_get_code_structure,
        tool_get_code_section, tool_search_municipal_codes, getitem, args_get;
      repeat first
        [ rewrite lookup_insert_eq
        | rewrite lookup_insert_ne by done
        | rewrite bind_ret
        | rewrite bind_raise
        | progress simpl py_upper
        | match goal with
          | |- context [arguments !! ?k] => destruct (arguments !! k)
          end ];
      rewrite ?Hupper; reflexivity.
Qed.

(** Finds the first request of a tool whose arguments are at hand. *)
Ltac first_request w :=
  unfold call_in_state; rewrite history_handle_call_tool;
  unfold dispatch; simpl String.eqb; cbv iota;
  unfold tool_get_states_info, tool_list_municipalities,
    tool_get_municipality_info, tool_get_code_structure,
    tool_get_code_section, tool_search_municipal_codes, getitem;
  repeat first
    [ rewrite lookup_insert_eq
    | rewrite lookup_insert_ne by done
    | match goal with H : _ !! _ = Some _ |- _ => rewrite H end
    | rewrite bind_ret
    | progress simpl py_upper ];
  unfold get_states, get_clients_by_state, get_client_by_name; cbv zeta;
  match goal with
  | |- context [bind (fetch ?url ?params) ?k] =>
      destruct (history_fetch_first w url params k) as [rest Hrest];
      rewrite Hrest; reflexivity
  end.

(** C9, as amended. A call reads [state_abbr] through one case mapping
    only. The six tools that talk to the service read it through [upper]:
    two state codes with the same upper-case form give the same requests and
    the same result, the first request of each tool carries the upper-case
    form, and so does the not-found text. [get_municipality_url] reads it
    through [lower]: two state codes with the same lower-case form give the
    same text, whose URL holds the lower-case form and whose first line
    holds the upper-case form of that. For ASCII state codes the two
    conditions are one, so ASCII codes that differ only in letter case give
    the same requests and the same result in every tool. *)
Theorem state_abbr_case_invariant name (arguments : gmap string pyval) w s1 s2 :
  (name ≠ "get_municipality_url" → Str.upper s1 = Str.upper s2 →
   call_in_state name arguments w s1 = call_in_state name arguments w s2) ∧
  (Str.lower s1 = Str.lower s2 →
   call_in_state "get_municipality_url" arguments w s1 =
   call_in_state "get_municipality_url" arguments w s2) ∧
  (Str.isascii s1 = true → Str.isascii s2 = true → Str.upper s1 = Str.upper s2 →
   call_in_state name arguments w s1 = call_in_state name arguments w s2) ∧
  head (call_in_state "get_states_info" arguments w s1).1 =
    Some (states_request (Str.upper s1)) ∧
  head (call_in_state "list_municipalities" arguments w s1).1 =
    Some (clients_state_request (Str.upper s1)) ∧
  (∀ m, arguments !! "municipality_name" = Some m →
        let lookup := Some (clients_name_request m (Str.upper s1)) in
        head (call_in_state "get_municipality_info" arguments w s1).1 = lookup ∧
        head (call_in_state "get_code_structure" arguments w s1).1 = lookup ∧
        (is_Some (arguments !! "node_id") →
         head (call_in_state "get_code_section" arguments w s1).1 = lookup) ∧
        (is_Some (arguments !! "search_query") →
         head (call_in_state "search_municipal_codes" arguments w s1).1 = lookup)) ∧
  (∀ m d, arguments !! "municipality_name" = Some m →
          reply_outcome (w [] (clients_name_request m (Str.upper s1))) = inr (PDict d) →
          truthy (dict_get d "ClientID") = false →
          call_in_state "get_code_structure" arguments w s1 =
          ([clients_name_request m (Str.upper s1)],
           inr (text_result ("Municipality '" +:+ py_str m +:+ "' not found in " +:+
                             Str.upper s1)))) ∧
  (∀ m, arguments !! "municipality_name" = Some (PStr m) →
        call_in_state "get_municipality_url" arguments w s1 =
        ([], inr (text_result
                    ("Municode Library URL for " +:+ m +:+ ", " +:+
                     Str.upper (Str.lower s1) +:+ ":" +:+ newline +:+
                     "https://library.municode.com/" +:+ Str.lower s1 +:+ "/" +:+
                     Str.replace "," "" (Str.replace " " "_" (Str.lower m)) +:+
                     "/codes/code_of_ordinances")))).
Proof.
  split_and!.
  - intros Hne Hupper. by apply same_state_same_call.
  - intros Hlower. by apply same_state_same_call.
  - intros H1 H2 Hupper. apply same_state_same_call; [done|]. intros _.
    by rewrite <- (lower_upper_isascii s1), <- (lower_upper_isascii s2), Hupper.
  - first_request w.
  - first_request w.
  - intros m Hm lookup. subst lookup. split_and!.
    + first_request w.
    + first_request w.
    + intros [node_id Hnode]. first_request w.
    + intros [query Hquery]. first_request w.
  - intros m d Hm Hreply Hfalsy. unfold call_in_state.
    apply no_identifier_structure with d; [|apply lookup_insert_eq|done..].
    by rewrite lookup_insert_ne.
  - intros m Hm. unfold call_in_state.
    rewrite run_handle_call_tool. unfold dispatch. simpl String.eqb. cbv iota.
    unfold tool_get_municipality_url, getitem.
    rewrite lookup_insert_eq, lookup_insert_ne, Hm by done.
    by repeat run_step.
Qed.

Lemma state_abbr_case_invariant_witness :
  call_in_state "get_code_structure" norfolk_va norfolk_service "va" =
  call_in_state "get_code_structure" norfolk_va norfolk_service "Va".
Proof.
  apply (state_abbr_case_invariant "get_code_structure" norfolk_va norfolk_service
           "va" "Va"); reflexivity.
Defined.

(** C9 as stated fails outside ASCII. SS is the upper-case form of the
    sharp s, and the tools that talk to the service treat the two alike; yet
    [get_municipality_url] builds a different URL for each, the sharp s being
    its own lower-case form. *)
Lemma sharp_s_state_changes_url :
  Str.upper sharp_s = "SS" ∧
  Str.upper "SS" = "SS" ∧
  Str.lower sharp_s = sharp_s ∧
  ∀ w,
    call_in_state "get_municipality_url" norfolk_va w sharp_s =
    ([], inr (text_result
                ("Municode Library URL for Norfolk, SS:" +:+ newline +:+
                 "https://library.municode.com/" +:+ sharp_s +:+
                 "/norfolk/codes/code_of_ordinances"))) ∧
    call_in_state "get_municipality_url" norfolk_va w "SS" =
    ([], inr (text_result
                ("Municode Library URL for Norfolk, SS:" +:+ newline +:+
                 "https://library.municode.com/ss/norfolk/codes/code_of_ordinances"))) ∧
    call_in_state "get_municipality_url" norfolk_va w sharp_s ≠
    call_in_state "get_municipality_url" norfolk_va w "SS".
Proof.
  split_and!; try reflexivity.
  intros w. split_and!; try reflexivity. discriminate.
Qed.

(** * Further properties *)

(** ** The catalogue and the dispatcher *)

(** X1. The names the catalogue advertises are distinct, and they are the
    names the dispatcher has a branch for: a call under an advertised name
    never takes the unknown-tool branch, and every other name does. *)
Theorem catalogue_names_are_dispatched :
  NoDup (Tool.name <$> handle_list_tools) ∧
  ∀ name arguments,
    name ∈ Tool.name <$> handle_list_tools ↔
    dispatch name arguments ≠ Ret (text_result ("Unknown tool: " +:+ name)).
Proof.
  split.
  - by apply (bool_decide_unpack _).
  - intros name arguments. split.
    + intros Hin. change (name ∈ tool_names) in Hin. unfold tool_names in Hin.
      unfold dispatch.
      repeat (apply elem_of_cons in Hin as [->|Hin]);
        [..|by apply elem_of_nil in Hin];
        simpl String.eqb; cbv iota;
        unfold tool_get_states_info, tool_list_municipalities,
          tool_get_municipality_info, tool_get_code_structure,
          tool_get_code_section, tool_search_municipal_codes,
          tool_get_municipality_url, getitem;
        repeat first
          [ discriminate
          | progress (rewrite ?bind_ret, ?bind_raise)
          | match goal with
            | |- context [arguments !! ?k] => destruct (arguments !! k)
            | |- context [py_upper ?v] => destruct v; simpl py_upper
            | |- context [py_lower ?v] => destruct v; simpl py_lower
            end ].
    + intros Hnot. change (name ∈ tool_names).
      destruct (decide (name ∈ tool_names)) as [|Hout]; [done|].
      exfalso. apply Hnot. unfold dispatch, tool_names in *.
      repeat (apply eqb_not_elem in Hout as [-> Hout]). done.
Qed.

(** Splits on which tool of the catalogue [tool] is. *)
Ltac each_tool Hin :=
  unfold handle_list_tools in Hin;
  repeat (apply elem_of_cons in Hin as [->|Hin]);
  [..|by apply elem_of_nil in Hin].

(** Evaluates what the catalogue declares for the tool at hand. *)
Ltac declared_in H :=
  match type of H with
  | context [schema_required ?t] =>
      let r := eval vm_compute in (schema_required t) in
      change (schema_required t) with r in H
  | context [schema_defaults ?t] =>
      let r := eval vm_compute in (schema_defaults t) in
      change (schema_defaults t) with r in H
  | context [schema_properties ?t] =>
      let r := eval vm_compute in ((schema_properties t).*1) in
      change ((schema_properties t).*1) with r in H
  end.

(** Opens the branch of the tool at hand in both the goal and its rewriting. *)
Ltac open_tool :=
  unfold handle_call_tool, dispatch; simpl Tool.name; simpl String.eqb; cbv iota;
  unfold tool_get_states_info, tool_list_municipalities,
    tool_get_municipality_info, tool_get_code_structure,
    tool_get_code_section, tool_search_municipal_codes,
    tool_get_municipality_url, getitem, args_get.

(** X2. A required parameter that is missing stops the call before any
    request: when the required parameters declared before it are present as
    text, the call sends nothing and returns ["Error: " + repr(key)]. *)
Theorem missing_required_parameter tool (arguments : gmap string pyval) w before key after :
  tool ∈ handle_list_tools →
  schema_required tool = before ++ key :: after →
  Forall (λ k, ∃ s, arguments !! k = Some (PStr s)) before →
  arguments !! key = None →
  run w [] (handle_call_tool (Tool.name tool) arguments) =
  ([], inr (text_result ("Error: " +:+ repr_str key))).
Proof.
  intros Hin Hreq Hbefore Hnone.
  each_tool Hin; declared_in Hreq;
    repeat (destruct before as [|? before]; simplify_eq/=);
    repeat match goal with
      | H : Forall _ (_ :: _) |- _ => apply Forall_cons in H as [[? ?] H]
      end;
    rewrite run_handle_call_tool; unfold dispatch; simpl String.eqb; cbv iota;
    unfold tool_get_states_info, tool_list_municipalities,
      tool_get_municipality_info, tool_get_code_structure,
      tool_get_code_section, tool_search_municipal_codes,
      tool_get_municipality_url, getitem;
    repeat match goal with
      | H : arguments !! _ = _ |- _ => rewrite H
      end;
    by repeat run_step.
Qed.

Lemma missing_required_parameter_witness :
  run norfolk_service []
    (handle_call_tool "search_municipal_codes" norfolk_va) =
  ([], inr (text_result "Error: 'search_query'")).
Proof.
  apply (missing_required_parameter (tool_at 5) norfolk_va norfolk_service
           ["municipality_name"; "state_abbr"] "search_query" []).
  - unfold tool_at, handle_list_tools. simpl nth.
    do 5 apply list_elem_of_further. apply list_elem_of_here.
  - reflexivity.
  - repeat constructor; by eexists.
  - reflexivity.
Defined.

(** X3. Leaving out an optional parameter is the same as passing the
    default the catalogue declares for it: the call sends the same requests
    and returns the same text. *)
Theorem omitted_parameter_takes_declared_default
    tool (arguments : gmap string pyval) w key value :
  tool ∈ handle_list_tools →
  (key, value) ∈ schema_defaults tool →
  arguments !! key = None →
  run w [] (handle_call_tool (Tool.name tool) arguments) =
  run w [] (handle_call_tool (Tool.name tool) (<[key := value]> arguments)).
Proof.
  intros Hin Hdefault Hnone. f_equal.
  each_tool Hin; declared_in Hdefault;
    repeat (apply elem_of_cons in Hdefault as [[= -> ->]|Hdefault]);
    try (by apply elem_of_nil in Hdefault);
    open_tool;
    rewrite ?lookup_insert_eq, ?Hnone; rewrite ?lookup_insert_ne by done;
    rewrite ?Hnone; reflexivity.
Qed.

Lemma omitted_parameter_takes_declared_default_witness :
  run norfolk_service []
    (handle_call_tool "search_municipal_codes"
       (<["search_query" := PStr "zoning"]> norfolk_va)) =
  run norfolk_service []
    (handle_call_tool "search_municipal_codes"
       (<["page_size" := PInt 10]> (<["search_query" := PStr "zoning"]> norfolk_va))).
Proof.
  apply (omitted_parameter_takes_declared_default (tool_at 5)
           (<["search_query" := PStr "zoning"]> norfolk_va) norfolk_service
           "page_size" (PInt 10)).
  - unfold tool_at, handle_list_tools. simpl nth.
    do 5 apply list_elem_of_further. apply list_elem_of_here.
  - vm_compute. apply list_elem_of_here.
  - reflexivity.
Defined.

(** X4. An argument the catalogue does not declare for a tool is never
    read: adding it changes neither the requests nor the text. *)
Theorem undeclared_argument_is_ignored
    tool (arguments : gmap string pyval) w key value :
  tool ∈ handle_list_tools →
  key ∉ (schema_properties tool).*1 →
  run w [] (handle_call_tool (Tool.name tool) (<[key := value]> arguments)) =
  run w [] (handle_call_tool (Tool.name tool) arguments).
Proof.
  intros Hin Hnot. f_equal.
  each_tool Hin; declared_in Hnot;
    repeat (apply not_elem_of_cons in Hnot as [? Hnot]);
    open_tool;
    rewrite ?lookup_insert_ne by done; reflexivity.
Qed.

Lemma undeclared_argument_is_ignored_witness :
  run norfolk_service []
    (handle_call_tool "get_municipality_info" (<["node_id" := PInt 5]> norfolk_va)) =
  run norfolk_service [] (handle_call_tool "get_municipality_info" norfolk_va).
Proof.
  apply (undeclared_argument_is_ignored (tool_at 2) norfolk_va norfolk_service
           "node_id" (PInt 5)).
  - unfold tool_at, handle_list_tools. simpl nth.
    do 2 apply list_elem_of_further. apply list_elem_of_here.
  - vm_compute. intros Hin.
    repeat (apply elem_of_cons in Hin as [Heq|Hin]; [discriminate Heq|]).
    by apply elem_of_nil in Hin.
Defined.

(** X5. A [state_abbr] that is not text stops the call before any request:
    with the required parameters present, the call sends nothing and reports
    that the value has no [upper] (no [lower] in [get_municipality_url]). *)
Theorem state_abbr_must_be_text tool (arguments : gmap string pyval) w v :
  tool ∈ handle_list_tools →
  Forall (λ k, is_Some (arguments !! k)) (schema_required tool) →
  arguments !! "state_abbr" = Some v →
  (∀ s, v ≠ PStr s) →
  run w [] (handle_call_tool (Tool.name tool) arguments) =
  ([], inr (text_result
              ("Error: '" +:+ type_name v +:+ "' object has no attribute '" +:+
               (if String.eqb (Tool.name tool) "get_municipality_url"
                then "lower" else "upper") +:+ "'"))).
Proof.
  intros Hin Hreq Hstate Htext.
  each_tool Hin; declared_in Hreq;
    repeat match goal with
      | H : Forall _ (_ :: _) |- _ => apply Forall_cons in H as [[? ?] H]
      end;
    rewrite run_handle_call_tool; unfold dispatch; simpl Tool.name;
    simpl String.eqb; cbv iota;
    unfold tool_get_states_info, tool_list_municipalities,
      tool_get_municipality_info, tool_get_code_structure,
      tool_get_code_section, tool_search_municipal_codes,
      tool_get_municipality_url, getitem;
    repeat match goal with
      | H : arguments !! _ = _ |- _ => rewrite H
      end;
    rewrite ?bind_ret.
  all: destruct v; try (by destruct (Htext s)).
  all: repeat run_step; reflexivity.
Qed.

Lemma state_abbr_must_be_text_witness :
  run norfolk_service []
    (handle_call_tool "list_municipalities" {["state_abbr" := PInt 51]}) =
  ([], inr (text_result "Error: 'int' object has no attribute 'upper'")).
Proof.
  apply (state_abbr_must_be_text (tool_at 1) {["state_abbr" := PInt 51]}
           norfolk_service (PInt 51)).
  - unfold tool_at, handle_list_tools. simpl nth.
    apply list_elem_of_further. apply list_elem_of_here.
  - vm_compute. repeat constructor. by eexists.
  - reflexivity.
  - discriminate.
Defined.

(** ** How many requests a call sends, and where *)

Lemma bind_call {A B} r (k : reply → prog A) (f : A → prog B) :
  bind (Call r k) f = Call r (λ rep, bind (k rep) f).
Proof. reflexivity. Qed.

Lemma sends_more {A} Q (P : A → Prop) n n' m :
  sends Q P n m → (n ≤ n')%nat → sends Q P n' m.
Proof.
  intros Hm. revert n'. induction Hm as [n a Ha|n e|n r k Hr Hk IH]; intros n' Hle.
  - by constructor.
  - constructor.
  - destruct n' as [|n']; [lia|]. constructor; [done|].
    intros rep. apply IH. lia.
Qed.

Lemma sends_bind {A B} Q (P : A → Prop) (P' : B → Prop) n n' m (f : A → prog B) :
  sends Q P n m → (∀ a, P a → sends Q P' n' (f a)) →
  sends Q P' (n + n') (bind m f).
Proof.
  intros Hm Hf. induction Hm as [n a Ha|n e|n r k Hr Hk IH].
  - rewrite bind_ret. apply sends_more with n'; [by apply Hf|lia].
  - rewrite bind_raise. constructor.
  - rewrite bind_call. simpl. constructor; [done|]. intros rep. apply IH.
Qed.

Lemma sends_bind_pure {A B} Q (P : A → Prop) (P' : B → Prop) n m (f : A → prog B) :
  sends Q P 0 m → (∀ a, P a → sends Q P' n (f a)) → sends Q P' n (bind m f).
Proof. apply (sends_bind Q P P' 0 n). Qed.

Lemma sends_bind_call {A B} Q (P : A → Prop) (P' : B → Prop) n m (f : A → prog B) :
  sends Q P 1 m → (∀ a, P a → sends Q P' n (f a)) → sends Q P' (S n) (bind m f).
Proof. apply (sends_bind Q P P' 1 n). Qed.

Lemma sends_fetch Q url params :
  Q (Request url params) → sends Q (λ _, True) 1 (fetch url params).
Proof.
  intros Hq. unfold fetch, client_get. rewrite bind_call. constructor; [done|].
  intros [msg|r]; [rewrite bind_raise; constructor|].
  rewrite bind_ret. unfold raise_for_status, response_json.
  destruct (is_success r); [rewrite bind_ret|rewrite bind_raise; constructor].
  destruct (body r); by constructor.
Qed.

(** What running such a program shows. *)
Lemma sends_run {A} Q (P : A → Prop) n (m : prog A) w h :
  sends Q P n m →
  ∃ new, (run w h m).1 = h ++ new ∧ (length new ≤ n)%nat ∧ Forall Q new.
Proof.
  intros Hm. revert h. induction Hm as [n a Ha|n e|n r k Hr Hk IH]; intros h.
  - exists []. rewrite run_ret, app_nil_r. split_and!; [done|simpl; lia|constructor].
  - exists []. rewrite run_raise, app_nil_r. split_and!; [done|simpl; lia|constructor].
  - destruct (IH (w h r) (h ++ [r])) as (new & Hrun & Hlen & Hall).
    exists (r :: new). unfold run; fold (@run A). rewrite Hrun, <- app_assoc.
    split_and!; [done|simpl; lia|by constructor].
Qed.

Section Sends.
Context (Q : request → Prop).

Lemma sends_getitem arguments key : sends Q (λ _, True) 0 (getitem arguments key).
Proof. unfold getitem. destruct (arguments !! key); by constructor. Qed.

Lemma sends_py_get v key default : sends Q (λ _, True) 0 (py_get v key default).
Proof. destruct v; by constructor. Qed.

Lemma sends_py_upper v : sends Q (λ _, True) 0 (py_upper v).
Proof. destruct v; by constructor. Qed.

Lemma sends_py_lower v : sends Q (λ _, True) 0 (py_lower v).
Proof. destruct v; by constructor. Qed.

Lemma sends_py_iter v : sends Q (λ _, True) 0 (py_iter v).
Proof. destruct v; by constructor. Qed.

(** What a tool goes on with is the upper-case form of its [state_abbr]. *)
Lemma sends_upper_argument arguments :
  sends Q (upper_state arguments) 0
    (v <- getitem arguments "state_abbr" ;; py_upper v).
Proof.
  unfold getitem.
  destruct (arguments !! "state_abbr") as [v|] eqn:Hstate;
    [rewrite bind_ret|rewrite bind_raise; constructor].
  destruct v; constructor. by eexists.
Qed.

Lemma sends_lower_argument arguments key :
  sends Q (λ _, True) 0 (v <- getitem arguments key ;; py_lower v).
Proof.
  apply (sends_bind_pure Q (λ _, True)); [apply sends_getitem|].
  intros v _. apply sends_py_lower.
Qed.

Lemma sends_format_clients clients : sends Q (λ _, True) 0 (format_clients clients).
Proof.
  induction clients as [|client rest IH]; [by constructor|].
  unfold format_clients; fold format_clients.
  do 7 (apply (sends_bind_pure Q (λ _, True)); [apply sends_py_get|intros ? _]).
  apply (sends_bind_pure Q (λ _, True)); [exact IH|intros ? _]. by constructor.
Qed.

Lemma sends_find_code_product products :
  sends Q (λ _, True) 0 (find_code_product products).
Proof.
  induction products as [|product rest IH]; [by constructor|].
  unfold find_code_product; fold find_code_product.
  apply (sends_bind_pure Q (λ _, True)); [apply sends_py_get|intros ? _].
  apply (sends_bind_pure Q (λ _, True)); [apply sends_py_lower|intros ? _].
  case_match; [by constructor|exact IH].
Qed.
End Sends.

Lemma request_kept_fixed arguments url query :
  bool_decide (url ∈ ["https://api.municode.com/States/abbr";
                      "https://api.municode.com/Clients/stateAbbr";
                      "https://api.municode.com/Clients/name";
                      "https://api.municode.com/codesToc/children";
                      "https://api.municode.com/CodesContent";
                      "https://api.municode.com/search"]) = true →
  (∀ v, assoc "stateAbbr" query = Some v → ∃ u, v = PStr u ∧ upper_state arguments u) →
  request_kept arguments (Request url (Some query)).
Proof.
  intros Hurl Hstate. split.
  - unfold endpoint_used. simpl. by rewrite Hurl.
  - intros query' v [= <-]. apply Hstate.
Qed.

Lemma request_kept_client_content arguments client_id :
  request_kept arguments (Request (MUNICODE_API_BASE +:+ "/ClientContent/" +:+ py_str client_id) None).
Proof.
  split.
  - unfold endpoint_used. apply orb_true_iff. right. reflexivity.
  - intros query v. discriminate.
Qed.

(** Walks through a tool, counting its requests down. *)
Ltac count_requests :=
  lazymatch goal with
  | |- sends ?Q _ _ (bind (bind (getitem ?a _) (λ v, py_upper v)) _) =>
      apply (sends_bind_pure Q (upper_state a));
      [apply sends_upper_argument|intros ? ?; count_requests]
  | |- sends ?Q _ _ (bind (bind (getitem _ _) (λ v, py_lower v)) _) =>
      apply (sends_bind_pure Q (λ _, True));
      [apply sends_lower_argument|intros ? _; count_requests]
  | |- sends ?Q _ _ (bind (fetch _ None) _) =>
      apply (sends_bind_call Q (λ _, True));
      [apply sends_fetch, request_kept_client_content|intros ? _; count_requests]
  | |- sends ?Q _ _ (bind (fetch _ (Some _)) _) =>
      apply (sends_bind_call Q (λ _, True));
      [ apply sends_fetch, request_kept_fixed;
        [reflexivity|intros ? Hassoc; vm_compute in Hassoc; simplify_eq; eauto]
      | intros ? _; count_requests]
  | |- sends _ _ _ (bind (if ?b then _ else _) _) => destruct b; count_requests
  | |- sends _ _ _ (bind (Ret _) _) => rewrite bind_ret; count_requests
  | |- sends ?Q _ _ (bind (bind _ _) _) =>
      apply (sends_bind_call Q (λ _, True));
      [count_requests|intros ? _; count_requests]
  | |- sends ?Q _ _ (bind _ _) =>
      apply (sends_bind_pure Q (λ _, True));
      [ first [ apply sends_getitem | apply sends_py_get | apply sends_py_lower
              | apply sends_py_iter | apply sends_format_clients
              | apply sends_find_code_product ]
      | intros ? _; count_requests]
  | |- sends _ _ _ (if ?b then _ else _) => destruct b; count_requests
  | |- sends _ _ _ (Ret _) => by constructor
  | |- sends _ _ _ (Raise _) => constructor
  end.

Lemma sends_dispatch name arguments :
  sends (request_kept arguments) (λ _, True) (max_requests name)
    (dispatch name arguments).
Proof.
  unfold dispatch, max_requests.
  repeat case_match; [..|by constructor];
    unfold tool_get_states_info, tool_list_municipalities,
      tool_get_municipality_info, tool_get_code_structure,
      tool_get_code_section, tool_search_municipal_codes,
      tool_get_municipality_url, get_states, get_clients_by_state,
      get_client_by_name, get_client_content, get_toc_children,
      get_codes_content, search_munidocs;
    cbv zeta; count_requests.
Qed.

Lemma startswith_cons a p u :
  Str.startswith (String a p) u = true →
  ∃ u', u = String a u' ∧ Str.startswith p u' = true.
Proof.
  destruct u as [|c u]; [discriminate|]. simpl.
  intros [Hc H]%andb_true_iff. apply bool_decide_eq_true in Hc. subst c.
  by exists u.
Qed.

Lemma client_content_url_apart u :
  Str.startswith "https://api.municode.com/ClientContent/" u = true →
  Str.startswith "https://api.municode.com/Jobs/latest/" u = false ∧
  Str.startswith "https://library.municode.com" u = false ∧
  u ≠ "https://api.municode.com/Products/name".
Proof.
  intros H.
  do 26 (apply startswith_cons in H as (? & -> & H)).
  split_and!; [reflexivity..|discriminate].
Qed.

Lemma endpoint_used_apart r :
  endpoint_used r = true →
  Str.startswith "https://api.municode.com/Jobs/latest/" (url r) = false ∧
  Str.startswith "https://library.municode.com" (url r) = false ∧
  url r ≠ "https://api.municode.com/Products/name".
Proof.
  unfold endpoint_used. intros [Hin|Hcontent]%orb_true_iff.
  - apply bool_decide_eq_true in Hin.
    repeat (apply elem_of_cons in Hin as [->|Hin]; [by split_and!|]).
    by apply elem_of_nil in Hin.
  - by apply client_content_url_apart.
Qed.

(** The requests of a call, as [sends_dispatch] bounds them. *)
Lemma requests_of_a_call name arguments w :
  (length (run w [] (handle_call_tool name arguments)).1 ≤ max_requests name)%nat ∧
  Forall (request_kept arguments) (run w [] (handle_call_tool name arguments)).1.
Proof.
  rewrite run_handle_call_tool.
  destruct (sends_run (request_kept arguments) (λ _, True) (max_requests name)
              (dispatch name arguments) w [] (sends_dispatch name arguments))
    as (new & Hrun & Hlen & Hall).
  destruct (run w [] (dispatch name arguments)) as [h [e|out]];
    simpl in *; by subst.
Qed.

(** X6. No call sends more than three requests: [get_states_info] and
    [list_municipalities] send at most one, [get_municipality_info] and
    [search_municipal_codes] at most two, [get_code_structure] and
    [get_code_section] at most three, and [get_municipality_url] and unknown
    names none. *)
Theorem request_budget name arguments w :
  (length (run w [] (handle_call_tool name arguments)).1 ≤ max_requests name)%nat ∧
  (max_requests name ≤ 3)%nat.
Proof.
  split; [apply requests_of_a_call|].
  unfold max_requests. repeat case_match; lia.
Qed.

(** X7. Every request of every call goes to one of the seven endpoints of
    the API host the dispatcher uses. None goes to the library host, to
    [/Jobs/latest/] or to [/Products/name]: [get_latest_job] and
    [get_product_by_name] are never called. *)
Theorem requests_stay_on_used_endpoints name arguments w r :
  r ∈ (run w [] (handle_call_tool name arguments)).1 →
  endpoint_used r = true ∧
  Str.startswith "https://api.municode.com/" (url r) = true ∧
  Str.startswith "https://api.municode.com/Jobs/latest/" (url r) = false ∧
  url r ≠ "https://api.municode.com/Products/name" ∧
  Str.startswith "https://library.municode.com" (url r) = false.
Proof.
  intros Hin.
  destruct (requests_of_a_call name arguments w) as [_ Hall].
  rewrite Forall_forall in Hall. destruct (Hall r Hin) as [Hused _].
  destruct (endpoint_used_apart r Hused) as (Hjob & Hlib & Hproduct).
  split_and!; [exact Hused| |exact Hjob|exact Hproduct|exact Hlib].
  unfold endpoint_used in Hused. apply orb_true_iff in Hused as [Hfixed|Hcontent].
  - apply bool_decide_eq_true in Hfixed.
    repeat (apply elem_of_cons in Hfixed as [->|Hfixed]; [reflexivity|]).
    by apply elem_of_nil in Hfixed.
  - revert Hcontent. generalize (url r). intros u H.
    do 25 (apply startswith_cons in H as (? & -> & H)).
    reflexivity.
Qed.

Lemma requests_stay_on_used_endpoints_witness :
  endpoint_used (client_content_request (PInt 7)) = true ∧
  Str.startswith "https://api.municode.com/" (url (client_content_request (PInt 7))) = true ∧
  Str.startswith "https://api.municode.com/Jobs/latest/"
    (url (client_content_request (PInt 7))) = false ∧
  url (client_content_request (PInt 7)) ≠ "https://api.municode.com/Products/name" ∧
  Str.startswith "https://library.municode.com"
    (url (client_content_request (PInt 7))) = false.
Proof.
  apply (requests_stay_on_used_endpoints "get_municipality_info" norfolk_va
           norfolk_service (client_content_request (PInt 7))).
  vm_compute. apply list_elem_of_further, list_elem_of_here.
Defined.

(** X8. Whenever a request of a call names a state, it names the state of
    the call in upper case: the [stateAbbr] of the request is the upper-case
    form of the text given as [state_abbr]. *)
Theorem state_sent_in_upper_case name arguments w r query v :
  r ∈ (run w [] (handle_call_tool name arguments)).1 →
  params r = Some query →
  assoc "stateAbbr" query = Some v →
  ∃ s, arguments !! "state_abbr" = Some (PStr s) ∧ v = PStr (Str.upper s).
Proof.
  intros Hin Hparams Hstate.
  destruct (requests_of_a_call name arguments w) as [_ Hall].
  rewrite Forall_forall in Hall. destruct (Hall r Hin) as [_ Hupper].
  destruct (Hupper query v Hparams Hstate) as (u & -> & s & Hs & ->).
  by exists s.
Qed.

Lemma state_sent_in_upper_case_witness :
  ∃ s, norfolk_va !! "state_abbr" = Some (PStr s) ∧ PStr "VA" = PStr (Str.upper s).
Proof.
  apply (state_sent_in_upper_case "get_code_structure" norfolk_va norfolk_service
           (clients_name_request (PStr "Norfolk") "VA")
           [("clientName", PStr "Norfolk"); ("stateAbbr", PStr "VA")] (PStr "VA")).
  - vm_compute. apply list_elem_of_here.
  - reflexivity.
  - reflexivity.
Defined.

(** ** What each tool returns *)

Lemma run_get_states w h state_abbr :
  run w h (get_states (PStr state_abbr)) =
  (h ++ [states_request state_abbr], reply_outcome (w h (states_request state_abbr))).
Proof. apply run_fetch. Qed.

Lemma run_get_clients_by_state w h state_abbr :
  run w h (get_clients_by_state (PStr state_abbr)) =
  (h ++ [clients_state_request state_abbr],
   reply_outcome (w h (clients_state_request state_abbr))).
Proof. apply run_fetch. Qed.

#[global] Arguments get_states : simpl never.
#[global] Arguments get_clients_by_state : simpl never.
#[global] Arguments format_clients : simpl never.
#[global] Arguments find_code_product : simpl never.

Ltac run_more :=
  first [ rewrite run_get_states | rewrite run_get_clients_by_state | run_step ].

(** Splits on the outcome inside a [final_text]. *)
Ltac destruct_final :=
  unfold final_text;
  match goal with
  | |- context [reply_outcome ?rep] =>
      destruct (reply_outcome rep); repeat run_more; done
  end.

(** X9. [get_states_info] passes the answer through: it sends one request
    for the upper-cased state and returns the JSON text of the decoded body
    unchanged, or the error text when the request fails. *)
Theorem states_info_passes_through (arguments : gmap string pyval) w s :
  arguments !! "state_abbr" = Some (PStr s) →
  run w [] (handle_call_tool "get_states_info" arguments) =
  ([states_request (Str.upper s)],
   inr (text_result (final_text (w [] (states_request (Str.upper s))) json_dumps))).
Proof.
  intros Hstate. enter_tool. rewrite Hstate. repeat run_more. destruct_final.
Qed.

Lemma states_info_passes_through_witness :
  run knows_nobody [] (handle_call_tool "get_states_info" norfolk_va) =
  ([states_request "VA"],
   inr (text_result
          (json_dumps (PDict [("ClientID", PInt 0); ("ClientName", PNone)])))).
Proof.
  apply (states_info_passes_through norfolk_va knows_nobody "va"). reflexivity.
Defined.

Lemma format_clients_records ds :
  format_clients (PDict <$> ds) = Ret (project_client <$> ds).
Proof.
  induction ds as [|d ds IH]; [done|].
  rewrite !fmap_cons. unfold format_clients; fold format_clients.
  simpl py_get. rewrite !bind_ret, IH, bind_ret. done.
Qed.

Lemma format_clients_not_a_record ds x rest :
  (∀ d, x ≠ PDict d) →
  format_clients ((PDict <$> ds) ++ x :: rest) = Raise (no_attribute x "get").
Proof.
  intros Hx. induction ds as [|d ds IH].
  - simpl app. unfold format_clients; fold format_clients.
    destruct x; try done. by destruct (Hx d).
  - rewrite fmap_cons, <- app_comm_cons.
    unfold format_clients; fold format_clients.
    simpl py_get. rewrite !bind_ret, IH. done.
Qed.

(** X10. On an array of client records [list_municipalities] answers with
    the number of records and, for each record in order, exactly seven
    fields: the name (["Unknown"] when the record has none) and the id,
    population range, classification, website, city and zip code ([null]
    when absent); every other field of a record is dropped. An empty array
    gives a count of 0. *)
Theorem list_municipalities_projects_records
    (arguments : gmap string pyval) w s (ds : list (list (string * pyval))) :
  arguments !! "state_abbr" = Some (PStr s) →
  reply_outcome (w [] (clients_state_request (Str.upper s))) =
    inr (PList (PDict <$> ds)) →
  run w [] (handle_call_tool "list_municipalities" arguments) =
  ([clients_state_request (Str.upper s)],
   inr (text_result
          ("Found " +:+ pretty (Z.of_nat (length ds)) +:+ " municipalities in " +:+
           Str.upper s +:+ ":" +:+ newline +:+ newline +:+
           json_dumps (PList (project_client <$> ds))))).
Proof.
  intros Hstate Hreply. enter_tool. rewrite Hstate. repeat run_more.
  rewrite Hreply. repeat run_more.
  rewrite format_clients_records. repeat run_more.
  by rewrite length_fmap.
Qed.

Lemma list_municipalities_projects_records_witness :
  run (λ _ _, ok_reply (PList (PDict <$> two_clients))) []
      (handle_call_tool "list_municipalities" norfolk_va) =
  ([clients_state_request "VA"],
   inr (text_result
          ("Found 2 municipalities in VA:" +:+ newline +:+ newline +:+
           json_dumps
             (PList [PDict [("name", PStr "Norfolk"); ("id", PInt 7);
                            ("population_range", PNone); ("classification", PNone);
                            ("website", PNone); ("city", PNone); ("zip_code", PNone)];
                     PDict [("name", PStr "Unknown"); ("id", PNone);
                            ("population_range", PNone); ("classification", PNone);
                            ("website", PNone); ("city", PStr "Suffolk");
                            ("zip_code", PNone)]])))).
Proof.
  apply (list_municipalities_projects_records norfolk_va
           (λ _ _, ok_reply (PList (PDict <$> two_clients))) "va" two_clients);
    reflexivity.
Defined.

(** X11. A reply to [list_municipalities] that is not an array of records
    is reported, never listed. An array with an entry that is not a record
    gives ["Error: '<type>' object has no attribute 'get'"] for the first
    such entry. A JSON object or a text is walked key by key or character by
    character, so it gives that error for [str], unless it is empty, when
    the count is 0. A number, a boolean or [null] gives
    ["Error: '<type>' object is not iterable"]. *)
Theorem list_municipalities_other_replies (arguments : gmap string pyval) w s :
  arguments !! "state_abbr" = Some (PStr s) →
  let request := clients_state_request (Str.upper s) in
  (∀ ds x rest,
      reply_outcome (w [] request) = inr (PList ((PDict <$> ds) ++ x :: rest)) →
      (∀ d, x ≠ PDict d) →
      run w [] (handle_call_tool "list_municipalities" arguments) =
      ([request],
       inr (text_result
              ("Error: '" +:+ type_name x +:+ "' object has no attribute 'get'")))) ∧
  (∀ v,
      reply_outcome (w [] request) = inr v →
      (∀ l, v ≠ PList l) →
      run w [] (handle_call_tool "list_municipalities" arguments) =
      ([request],
       inr (text_result
              match v with
              | PDict (_ :: _) | PStr (String _ _) =>
                  "Error: 'str' object has no attribute 'get'"
              | PDict [] | PStr EmptyString =>
                  "Found 0 municipalities in " +:+ Str.upper s +:+ ":" +:+
                  newline +:+ newline +:+ "[]"
              | _ => "Error: '" +:+ type_name v +:+ "' object is not iterable"
              end))).
Proof.
  intros Hstate request. subst request. split.
  - intros ds x rest Hreply Hx. enter_tool. rewrite Hstate. repeat run_more.
    rewrite Hreply. repeat run_more.
    rewrite (format_clients_not_a_record ds x rest Hx). repeat run_more. reflexivity.
  - intros v Hreply Hnot. enter_tool. rewrite Hstate. repeat run_more.
    rewrite Hreply. destruct v as [|b|z|f|t|l|d]; repeat run_more; try reflexivity.
    + destruct t as [|c t]; repeat run_more; reflexivity.
    + by destruct (Hnot l).
    + destruct d as [|[k x] d]; repeat run_more; reflexivity.
Qed.

Lemma list_municipalities_other_replies_witness :
  run (λ _ _, ok_reply (PDict [("Message", PStr "An error has occurred.")])) []
      (handle_call_tool "list_municipalities" norfolk_va) =
  ([clients_state_request "VA"],
   inr (text_result "Error: 'str' object has no attribute 'get'")).
Proof.
  apply (proj2 (list_municipalities_other_replies norfolk_va
                  (λ _ _, ok_reply (PDict [("Message", PStr "An error has occurred.")]))
                  "va" eq_refl)
           (PDict [("Message", PStr "An error has occurred.")]));
    [reflexivity|discriminate].
Defined.

(** X12. When the lookup gives a truthy identifier, [get_municipality_info]
    fetches the products of that identifier and returns the JSON text of the
    lookup record and the products together, under [client_info] and
    [available_products]; a failing product request gives the error text. *)
Theorem municipality_info_with_products
    (arguments : gmap string pyval) w m s d client_id :
  arguments !! "municipality_name" = Some m →
  arguments !! "state_abbr" = Some (PStr s) →
  reply_outcome (w [] (clients_name_request m (Str.upper s))) = inr (PDict d) →
  assoc "ClientID" d = Some client_id →
  truthy client_id = true →
  let h := [clients_name_request m (Str.upper s)] in
  run w [] (handle_call_tool "get_municipality_info" arguments) =
  (h ++ [client_content_request client_id],
   inr (text_result
          (final_text (w h (client_content_request client_id))
             (λ products,
                json_dumps (PDict [("client_info", PDict d);
                                   ("available_products", products)]))))).
Proof.
  intros Hname Hstate Hreply Hid Htruthy h. subst h.
  enter_tool. rewrite Hname, Hstate. repeat run_more.
  rewrite Hreply. repeat run_more. rewrite Hid, Htruthy. repeat run_more.
  destruct_final.
Qed.

Lemma municipality_info_with_products_witness :
  run norfolk_service [] (handle_call_tool "get_municipality_info" norfolk_va) =
  ([clients_name_request (PStr "Norfolk") "VA"; client_content_request (PInt 7)],
   inr (text_result
          (json_dumps
             (PDict [("client_info",
                      PDict [("ClientID", PInt 7); ("ClientName", PStr "Norfolk")]);
                     ("available_products", PList two_codes)])))).
Proof.
  apply (municipality_info_with_products norfolk_va norfolk_service
           (PStr "Norfolk") "va"
           [("ClientID", PInt 7); ("ClientName", PStr "Norfolk")] (PInt 7));
    reflexivity.
Defined.

(** X13. A lookup answered with anything but a record (an array, a text,
    a number, [null]) ends each of the four tools after that one request
    with ["Error: '<type>' object has no attribute 'get'"]. *)
Theorem lookup_must_be_a_record (arguments : gmap string pyval) w m s v :
  arguments !! "municipality_name" = Some m →
  arguments !! "state_abbr" = Some (PStr s) →
  reply_outcome (w [] (clients_name_request m (Str.upper s))) = inr v →
  (∀ d, v ≠ PDict d) →
  let outcome :=
    ([clients_name_request m (Str.upper s)],
     inr (text_result
            ("Error: '" +:+ type_name v +:+ "' object has no attribute 'get'"))) in
  run w [] (handle_call_tool "get_municipality_info" arguments) = outcome ∧
  run w [] (handle_call_tool "get_code_structure" arguments) = outcome ∧
  (is_Some (arguments !! "node_id") →
   run w [] (handle_call_tool "get_code_section" arguments) = outcome) ∧
  (is_Some (arguments !! "search_query") →
   run w [] (handle_call_tool "search_municipal_codes" arguments) = outcome).
Proof.
  intros Hname Hstate Hreply Hnot outcome. subst outcome.
  split_and!; [| |intros [x Hx]|intros [x Hx]];
    enter_tool; rewrite ?Hx, Hname, Hstate; repeat run_more;
    rewrite ?Hx; repeat run_more;
    rewrite Hreply; (destruct v; [..|by destruct (Hnot d)]);
    repeat run_more; reflexivity.
Qed.

Lemma lookup_must_be_a_record_witness :
  run (λ _ _, ok_reply PNone) [] (handle_call_tool "get_code_structure" norfolk_va) =
  ([clients_name_request (PStr "Norfolk") "VA"],
   inr (text_result "Error: 'NoneType' object has no attribute 'get'")).
Proof.
  apply (lookup_must_be_a_record norfolk_va (λ _ _, ok_reply PNone)
           (PStr "Norfolk") "va" PNone);
    [reflexivity|reflexivity|reflexivity|discriminate].
Defined.

(** ** Product lists without a usable code product *)

(** Without a product that names a code [code_product] stays [None]. *)
Lemma find_code_product_none products :
  Forall (λ q, passed_over q = true) products →
  find_code_product products = Ret PNone.
Proof.
  intros Hall. induction Hall as [|q products Hq _ IH]; [done|].
  unfold passed_over in Hq. destruct (product_name q) as [n|] eqn:Hn; [|done].
  apply negb_true_iff in Hq. by rewrite (find_code_product_step q n), Hq.
Qed.

Lemma find_code_product_unreadable before x after :
  Forall (λ q, passed_over q = true) before →
  product_name x = None →
  find_code_product (before ++ x :: after) = Raise (unreadable_product x).
Proof.
  intros Hbefore Hx. induction Hbefore as [|q before Hq _ IH].
  - rewrite app_nil_l. unfold find_code_product; fold find_code_product.
    unfold product_name in Hx. destruct x as [| | | | | |dx]; try reflexivity.
    simpl py_get. rewrite bind_ret. unfold unreadable_product, dict_get.
    destruct (assoc "ProductName" dx) as [[| | | |n| |]|]; try discriminate;
      reflexivity.
  - unfold passed_over in Hq. destruct (product_name q) as [n|] eqn:Hn; [|done].
    apply negb_true_iff in Hq.
    by rewrite <- app_comm_cons, (find_code_product_step q n), Hq.
Qed.

Section Products.
Context (arguments : gmap string pyval) (w : remote).
Context (m : pyval) (s : string) (client_id : pyval).
Hypothesis Hfinds : finds_identifier arguments w m s client_id.

(** Both tools up to the loop over the products. *)
Lemma run_up_to_products (tool : string) products :
  tool = "get_code_structure" ∨
    (tool = "get_code_section" ∧ is_Some (arguments !! "node_id")) →
  products_reply w m s client_id = inr (PList products) →
  (∀ p, find_code_product products ≠ Ret p ∨ truthy p = false) →
  run w [] (handle_call_tool tool arguments) =
  ([clients_name_request m (Str.upper s); client_content_request client_id],
   inr (text_result
          match find_code_product products with
          | Raise e => "Error: " +:+ str_exn e
          | _ => no_code_text
          end)).
Proof using All.
  destruct Hfinds as (Hname & Hstate & d & Hreply & Hid & Htruthy).
  unfold products_reply.
  intros [->|[-> [node_id Hnode]]] Hproducts Hloop;
    enter_tool; rewrite Hname, Hstate, ?Hnode; repeat run_more;
    rewrite Hreply; repeat run_more; rewrite Hid, Htruthy; repeat run_more;
    rewrite Hproducts; repeat run_more;
    (destruct (find_code_product products) as [p|e|r k] eqn:Hloop';
     [ destruct (Hloop p) as [?|Hp]; [done|]; repeat run_more;
       rewrite Hp; by repeat run_more
     | by repeat run_more
     | exfalso;
       pose proof (sends_find_code_product (λ _, True) products) as Hsends;
       rewrite Hloop' in Hsends; inversion Hsends ]).
Qed.
End Products.

(** X14. When the products are records the loop can read (the
    [ProductName] of each is text or absent) and none of their names
    contains "code", [get_code_structure] and [get_code_section] (given a
    [node_id]) stop after the product request and return
    ["No code of ordinances found for this municipality"]; this is so for an
    empty product list too. *)
Theorem no_code_of_ordinances
    (arguments : gmap string pyval) w m s client_id products :
  finds_identifier arguments w m s client_id →
  products_reply w m s client_id = inr (PList products) →
  Forall (λ q, passed_over q = true) products →
  let outcome :=
    ([clients_name_request m (Str.upper s); client_content_request client_id],
     inr (text_result "No code of ordinances found for this municipality")) in
  run w [] (handle_call_tool "get_code_structure" arguments) = outcome ∧
  (is_Some (arguments !! "node_id") →
   run w [] (handle_call_tool "get_code_section" arguments) = outcome).
Proof.
  intros Hfinds Hproducts Hall outcome. subst outcome.
  pose proof (find_code_product_none products Hall) as Hnone.
  split; [|intros Hnode].
  - rewrite (run_up_to_products arguments w m s client_id Hfinds
               "get_code_structure" products); [by rewrite Hnone|by left|done|].
    intros p. rewrite Hnone. destruct p; (by right) || (by left).
  - rewrite (run_up_to_products arguments w m s client_id Hfinds
               "get_code_section" products); [by rewrite Hnone|by right|done|].
    intros p. rewrite Hnone. destruct p; (by right) || (by left).
Qed.

Lemma norfolk_finds_identifier (w : remote) arguments :
  arguments !! "municipality_name" = Some (PStr "Norfolk") →
  arguments !! "state_abbr" = Some (PStr "va") →
  w [] (clients_name_request (PStr "Norfolk") "VA") =
    ok_reply (PDict [("ClientID", PInt 7); ("ClientName", PStr "Norfolk")]) →
  finds_identifier arguments w (PStr "Norfolk") "va" (PInt 7).
Proof.
  intros Hname Hstate Hreply. split_and!; [done..|].
  exists [("ClientID", PInt 7); ("ClientName", PStr "Norfolk")].
  change (Str.upper "va") with "VA". rewrite Hreply. by split_and!.
Defined.

Lemma no_code_of_ordinances_witness :
  run zoning_only [] (handle_call_tool "get_code_structure" norfolk_va) =
  ([clients_name_request (PStr "Norfolk") "VA"; client_content_request (PInt 7)],
   inr (text_result "No code of ordinances found for this municipality")).
Proof.
  apply (no_code_of_ordinances norfolk_va zoning_only (PStr "Norfolk") "va" (PInt 7)
           [PDict [("ProductName", PStr "Zoning")]; PDict [("Id", PInt 4)]]).
  - apply norfolk_finds_identifier; reflexivity.
  - reflexivity.
  - by repeat constructor.
Defined.

(** X15. An entry of the product list that cannot be read, met before any
    product that names a code, ends both tools after the product request:
    an entry that is not a record gives
    ["Error: '<type>' object has no attribute 'get'"], a record whose
    [ProductName] is not text (for instance [null]) gives
    ["Error: '<type>' object has no attribute 'lower'"]. A product that
    names a code further down the list is not reached. *)
Theorem unreadable_product_stops_the_call
    (arguments : gmap string pyval) w m s client_id before x after :
  finds_identifier arguments w m s client_id →
  products_reply w m s client_id = inr (PList (before ++ x :: after)) →
  Forall (λ q, passed_over q = true) before →
  product_name x = None →
  let outcome :=
    ([clients_name_request m (Str.upper s); client_content_request client_id],
     inr (text_result
            match x with
            | PDict dx =>
                "Error: '" +:+ type_name (dict_get dx "ProductName") +:+
                "' object has no attribute 'lower'"
            | _ => "Error: '" +:+ type_name x +:+ "' object has no attribute 'get'"
            end)) in
  run w [] (handle_call_tool "get_code_structure" arguments) = outcome ∧
  (is_Some (arguments !! "node_id") →
   run w [] (handle_call_tool "get_code_section" arguments) = outcome).
Proof.
  intros Hfinds Hproducts Hbefore Hx outcome. subst outcome.
  pose proof (find_code_product_unreadable before x after Hbefore Hx) as Hraise.
  split; [|intros Hnode].
  - rewrite (run_up_to_products arguments w m s client_id Hfinds
               "get_code_structure" (before ++ x :: after));
      [rewrite Hraise; by destruct x|by left|done|].
    intros p. left. by rewrite Hraise.
  - rewrite (run_up_to_products arguments w m s client_id Hfinds
               "get_code_section" (before ++ x :: after));
      [rewrite Hraise; by destruct x|by right|done|].
    intros p. left. by rewrite Hraise.
Qed.

Lemma unreadable_product_stops_the_call_witness :
  run nameless_product [] (handle_call_tool "get_code_structure" norfolk_va) =
  ([clients_name_request (PStr "Norfolk") "VA"; client_content_request (PInt 7)],
   inr (text_result "Error: 'NoneType' object has no attribute 'lower'")).
Proof.
  apply (unreadable_product_stops_the_call norfolk_va nameless_product
           (PStr "Norfolk") "va" (PInt 7)
           [] (PDict [("ProductName", PNone)])
           [PDict [("ProductName", PStr "Code of Ordinances")]]).
  - apply norfolk_finds_identifier; reflexivity.
  - reflexivity.
  - constructor.
  - reflexivity.
Defined.

(** ** How the chains end *)

(** X16. With a code product found, [get_code_structure] ends on its
    table-of-contents request and [get_code_section] on its content request:
    the text is the heading, naming the municipality as given and the state
    in upper case (and the node for a section), followed by the JSON text of
    the decoded body, or the error text when that last request fails. *)
Theorem code_chain_outcome (arguments : gmap string pyval) w m s client_id p :
  finds_code_product arguments w m s client_id p →
  let h := [clients_name_request m (Str.upper s);
            client_content_request client_id] in
  (let toc := toc_children_request (field p "Id") (field p "ProductID")
                (args_get arguments "node_id" (PStr "10121")) in
   run w [] (handle_call_tool "get_code_structure" arguments) =
   (h ++ [toc],
    inr (text_result
           (final_text (w h toc)
              (λ v, "Code structure for " +:+ py_str m +:+ ", " +:+ Str.upper s +:+
                    ":" +:+ newline +:+ newline +:+ json_dumps v))))) ∧
  (∀ node_id,
      arguments !! "node_id" = Some node_id →
      let content :=
        codes_content_request (field p "Id") (field p "ProductID") node_id in
      run w [] (handle_call_tool "get_code_section" arguments) =
      (h ++ [content],
       inr (text_result
              (final_text (w h content)
                 (λ v, "Content for node " +:+ py_str node_id +:+ " in " +:+
                       py_str m +:+ ", " +:+ Str.upper s +:+ ":" +:+
                       newline +:+ newline +:+ json_dumps v))))).
Proof.
  intros (Hname & Hstate & d & before & after & Hreply & Hid & Htruthy &
          Hproducts & Hbefore & Hp) h.
  split.
  - apply (run_code_structure arguments w m s d client_id before p after); done.
  - intros node_id Hnode.
    apply (run_code_section arguments w m s d client_id before p after); done.
Qed.

Lemma code_chain_outcome_witness :
  run norfolk_service []
    (handle_call_tool "get_code_section" (<["node_id" := PStr "CH1"]> norfolk_va)) =
  ([clients_name_request (PStr "Norfolk") "VA"; client_content_request (PInt 7);
    codes_content_request (PInt 11) (PInt 22) (PStr "CH1")],
   inr (text_result
          ("Content for node CH1 in Norfolk, VA:" +:+ newline +:+ newline +:+ "[]"))).
Proof.
  refine (proj2 (code_chain_outcome (<["node_id" := PStr "CH1"]> norfolk_va)
                   norfolk_service (PStr "Norfolk") "va" (PInt 7)
                   (PDict [("ProductName", PStr "CODE of Ordinances"); ("Id", PInt 11);
                           ("ProductID", PInt 22)]) _)
            (PStr "CH1") _).
  - apply norfolk_finds_code_product; reflexivity.
  - reflexivity.
Defined.

(** X17. With an identifier found, [search_municipal_codes] sends one
    search for the query as given, with page 1, ten results per page and
    [titlesOnly=False] unless the arguments say otherwise, and returns the
    heading followed by the JSON text of the decoded body, or the error text
    when the search fails. *)
Theorem search_outcome (arguments : gmap string pyval) w m s client_id search_query :
  finds_identifier arguments w m s client_id →
  arguments !! "search_query" = Some search_query →
  let h := [clients_name_request m (Str.upper s)] in
  let search :=
    search_request client_id search_query
      (args_get arguments "page_number" (PInt 1))
      (args_get arguments "page_size" (PInt 10))
      (args_get arguments "titles_only" (PBool false))
      (PBool false) in
  run w [] (handle_call_tool "search_municipal_codes" arguments) =
  (h ++ [search],
   inr (text_result
          (final_text (w h search)
             (λ v, "Search results for '" +:+ py_str search_query +:+ "' in " +:+
                   py_str m +:+ ", " +:+ Str.upper s +:+ ":" +:+
                   newline +:+ newline +:+ json_dumps v)))).
Proof.
  intros (Hname & Hstate & d & Hreply & Hid & Htruthy) Hquery h search.
  apply (run_search_municipal_codes arguments w m s d client_id search_query); done.
Qed.

Lemma search_outcome_witness :
  run norfolk_service []
    (handle_call_tool "search_municipal_codes"
       (<["search_query" := PStr "zoning"]> norfolk_va)) =
  ([clients_name_request (PStr "Norfolk") "VA";
    search_request (PInt 7) (PStr "zoning") (PInt 1) (PInt 10) (PBool false)
      (PBool false)],
   inr (text_result
          ("Search results for 'zoning' in Norfolk, VA:" +:+ newline +:+ newline +:+
           "[]"))).
Proof.
  etransitivity.
  - apply (search_outcome (<["search_query" := PStr "zoning"]> norfolk_va)
             norfolk_service (PStr "Norfolk") "va" (PInt 7) (PStr "zoning")).
    + apply norfolk_finds_identifier; reflexivity.
    + reflexivity.
  - reflexivity.
Defined.

(** ** The slug of a municipality name *)

Lemma slugify_clean s : slug_clean (slugify s) = true.
Proof.
  induction s as [|c s IH]; [done|].
  simpl slugify. repeat case_bool_decide; simplify_eq; [done..|].
  simpl slug_clean. rewrite IH.
  by destruct c as [[] [] [] [] [] [] [] []].
Qed.

Lemma slugify_stable s : slugify (slugify s) = slugify s.
Proof.
  induction s as [|c s IH]; [done|].
  simpl slugify. repeat case_bool_decide; simplify_eq; [by simpl; rewrite IH|done|].
  simpl slugify. rewrite IH.
  by destruct c as [[] [] [] [] [] [] [] []].
Qed.

(** X18. The part of the library URL made from the municipality name holds
    no space, no comma and no capital letter, whatever the name; and a name
    that is already such a slug is left as it is. *)
Theorem formatted_name_is_a_slug m :
  let formatted_name t := Str.replace "," "" (Str.replace " " "_" (Str.lower t)) in
  slug_clean (formatted_name m) = true ∧
  formatted_name (formatted_name m) = formatted_name m.
Proof.
  intros formatted_name. subst formatted_name. simpl.
  rewrite !formatted_name_slugify. split; [apply slugify_clean|apply slugify_stable].
Qed.

(** ** The client *)

Lemma client_methods_one h w :
  (∀ c, run w h (get_client_content c) =
        (h ++ [client_content_request c],
         reply_outcome (w h (client_content_request c)))) ∧
  (∀ j, run w h (get_latest_job j) =
        (h ++ [latest_job_request j], reply_outcome (w h (latest_job_request j)))).
Proof. split; intros; apply run_fetch. Qed.

(** X19. Each of the nine methods of the client sends exactly one request,
    to its own endpoint with its own query, and ends by the reply alone: the
    decoded body of a 2xx reply, an exception otherwise. Nothing is retried
    and nothing is remembered. *)
Theorem client_methods_send_one_request w h :
  (∀ s, run w h (get_states (PStr s)) =
        (h ++ [states_request s], reply_outcome (w h (states_request s)))) ∧
  (∀ s, run w h (get_clients_by_state (PStr s)) =
        (h ++ [clients_state_request s],
         reply_outcome (w h (clients_state_request s)))) ∧
  (∀ m s, run w h (get_client_by_name m (PStr s)) =
          (h ++ [clients_name_request m s],
           reply_outcome (w h (clients_name_request m s)))) ∧
  (∀ c, run w h (get_client_content c) =
        (h ++ [client_content_request c],
         reply_outcome (w h (client_content_request c)))) ∧
  (∀ c n, run w h (get_product_by_name c n) =
          (h ++ [product_name_request c n],
           reply_outcome (w h (product_name_request c n)))) ∧
  (∀ j, run w h (get_latest_job j) =
        (h ++ [latest_job_request j], reply_outcome (w h (latest_job_request j)))) ∧
  (∀ j p n, run w h (get_toc_children j p n) =
            (h ++ [toc_children_request j p n],
             reply_outcome (w h (toc_children_request j p n)))) ∧
  (∀ j p n, run w h (get_codes_content j p n) =
            (h ++ [codes_content_request j p n],
             reply_outcome (w h (codes_content_request j p n)))) ∧
  (∀ c t pn ps to adv, run w h (search_munidocs c t pn ps to adv) =
                       (h ++ [search_request c t pn ps to adv],
                        reply_outcome (w h (search_request c t pn ps to adv)))).
Proof.
  split_and!; intros; apply run_fetch.
Qed.

Lemma app_cancel_prefix (p x y : string) : p +:+ x = p +:+ y → x = y.
Proof.
  induction p as [|c p IH]; [done|].
  rewrite !app_cons. intros [= Heq]. by apply IH.
Qed.

(** X20. Distinct integer identifiers are fetched from distinct URLs: the
    product request of two client ids, and the job request of two job ids,
    are the same only when the ids are. *)
Theorem identifier_urls_are_apart w h (a b : Z) :
  ((run w h (get_client_content (PInt a))).1 =
   (run w h (get_client_content (PInt b))).1 → a = b) ∧
  ((run w h (get_latest_job (PInt a))).1 =
   (run w h (get_latest_job (PInt b))).1 → a = b).
Proof.
  destruct (client_methods_one h w) as (Hcontent & Hjob).
  split; intros Heq.
  - rewrite !Hcontent in Heq. simpl in Heq.
    apply app_inv_head in Heq. injection Heq as Heq.
    apply app_cancel_prefix in Heq. by apply (inj pretty).
  - rewrite !Hjob in Heq. simpl in Heq.
    apply app_inv_head in Heq. injection Heq as Heq.
    apply app_cancel_prefix in Heq. by apply (inj pretty).
Qed.

(** ** Resources *)

(** X21. A resource can be read exactly when it is listed: the one listed
    URI, [municode://help], gives the help text, and every other URI raises
    [ValueError] with ["Unknown resource: " + uri]. *)
Theorem resources_read_as_listed uri :
  (uri ∈ Resource.uri <$> handle_list_resources ↔
   handle_read_resource uri = inr help_text) ∧
  (uri ∉ Resource.uri <$> handle_list_resources ↔
   handle_read_resource uri = inl (ValueError ("Unknown resource: " +:+ uri))).
Proof.
  unfold handle_read_resource, handle_list_resources. simpl fmap.
  destruct (String.eqb uri "municode://help") eqn:Heq.
  - apply String.eqb_eq in Heq. subst uri. split; split; try done.
    + intros _. apply list_elem_of_here.
    + intros Hnot. destruct Hnot. apply list_elem_of_here.
  - apply String.eqb_neq in Heq. split; split; try done.
    + intros Hin. apply elem_of_cons in Hin as [->|Hin]; [done|].
      by apply elem_of_nil in Hin.
    + intros _ Hin. apply elem_of_cons in Hin as [->|Hin]; [done|].
      by apply elem_of_nil in Hin.
Qed.

(** X22. The help text names every tool of the catalogue. *)
Theorem help_names_every_tool tool :
  tool ∈ handle_list_tools →
  Str.contains (Tool.name tool) help_text = true.
Proof.
  intros Hin. each_tool Hin; vm_compute; reflexivity.
Qed.

Lemma help_names_every_tool_witness :
  Str.contains "get_code_section" help_text = true.
Proof.
  apply (help_names_every_tool (tool_at 4)).
  unfold tool_at, handle_list_tools. simpl nth.
  do 4 apply list_elem_of_further. apply list_elem_of_here.
Defined.

(** ** The client of the test script *)

(** X23. The client that [test_server.py] carries sends what the server's
    client sends: its three lookups are the same programs, and its search is
    the server's search with [is_advanced=False], the value the dispatcher
    passes too. *)
Theorem test_client_agrees_with_server :
  TestServer.get_states = get_states ∧
  TestServer.get_clients_by_state = get_clients_by_state ∧
  TestServer.get_client_by_name = get_client_by_name ∧
  (∀ client_id search_text page_num page_size titles_only,
      TestServer.search_munidocs client_id search_text page_num page_size titles_only =
      search_munidocs client_id search_text page_num page_size titles_only
        (PBool false)) ∧
  (∀ w h client_id search_text page_num page_size titles_only,
      (run w h (TestServer.search_munidocs client_id search_text page_num page_size
                  titles_only)).1 =
      h ++ [search_request client_id search_text page_num page_size titles_only
              (PBool false)]).
Proof.
  split_and!; try reflexivity.
  intros. apply (f_equal fst (run_fetch _ _ _ _)).
Qed.

(** ** The tools of a municipality start alike *)

(** The requests of [get_municipality_info] come first in any program that
    looks the municipality up, stops without identifier and otherwise
    fetches the products before going on. *)
Lemma info_history_prefix {A} (arguments : gmap string pyval) w m s
    (a : A) (rest : pyval → prog A) :
  arguments !! "municipality_name" = Some m →
  arguments !! "state_abbr" = Some (PStr s) →
  (run w [] (tool_get_municipality_info arguments)).1 `prefix_of`
  (run w []
     (client_info <- get_client_by_name m (PStr (Str.upper s)) ;;
      client_id <- py_get client_info "ClientID" PNone ;;
      if negb (truthy client_id) then Ret a
      else client_content <- get_client_content client_id ;; rest client_content)).1.
Proof.
  intros Hname Hstate. unfold tool_get_municipality_info, getitem.
  rewrite Hname, Hstate. rewrite !bind_ret. simpl py_upper.
  rewrite ?bind_ret, !history_bind, !run_get_client_by_name.
  destruct (reply_outcome _) as [e|v]; [done|].
  rewrite !history_bind.
  destruct v as [| | | | | |d]; simpl py_get; rewrite ?run_raise, ?run_ret; try done.
  destruct (truthy _); simpl negb; cbv iota; [|by rewrite !history_bind, !run_ret].
  rewrite !history_bind. rewrite !run_bind, !run_get_client_content.
  destruct (reply_outcome _) as [e|products]; [done|].
  rewrite run_ret. apply run_extends.
Qed.

(** X24. Given a [municipality_name] and a text [state_abbr], the tools
    that address a municipality start with the same lookup request:
    [get_municipality_info] and [get_code_structure] always,
    [get_code_section] when it is given a [node_id] and
    [search_municipal_codes] when it is given a [search_query]. Whatever the
    service answers, the requests of [get_municipality_info] are then the
    first requests of [get_code_structure], and of [get_code_section] given
    a [node_id]. *)
Theorem municipality_tools_start_alike (arguments : gmap string pyval) w m s :
  arguments !! "municipality_name" = Some m →
  arguments !! "state_abbr" = Some (PStr s) →
  let history name := (run w [] (handle_call_tool name arguments)).1 in
  [clients_name_request m (Str.upper s)] `prefix_of` history "get_municipality_info" ∧
  history "get_municipality_info" `prefix_of` history "get_code_structure" ∧
  (is_Some (arguments !! "node_id") →
   history "get_municipality_info" `prefix_of` history "get_code_section") ∧
  (is_Some (arguments !! "search_query") →
   [clients_name_request m (Str.upper s)] `prefix_of` history "search_municipal_codes").
Proof.
  intros Hname Hstate history. subst history. cbv beta.
  rewrite !history_handle_call_tool.
  assert (∀ A (k : pyval → prog A),
             [clients_name_request m (Str.upper s)] `prefix_of`
             (run w [] (bind (get_client_by_name m (PStr (Str.upper s))) k)).1)
    as Hfirst.
  { intros A k. rewrite history_bind, run_get_client_by_name.
    destruct (reply_outcome _); [done|apply run_extends]. }
  split_and!.
  - unfold dispatch. simpl String.eqb. cbv iota.
    unfold tool_get_municipality_info, getitem. rewrite Hname, Hstate.
    rewrite !bind_ret. simpl py_upper. rewrite bind_ret. apply Hfirst.
  - unfold dispatch at 2. simpl String.eqb. cbv iota.
    unfold tool_get_code_structure, getitem. rewrite Hname, Hstate.
    rewrite !bind_ret. simpl py_upper. rewrite bind_ret.
    unfold dispatch. simpl String.eqb. cbv iota.
    by apply info_history_prefix.
  - intros [node_id Hnode].
    unfold dispatch at 2. simpl String.eqb. cbv iota.
    unfold tool_get_code_section, getitem. rewrite Hname, Hstate, Hnode.
    rewrite !bind_ret. simpl py_upper. rewrite !bind_ret.
    unfold dispatch. simpl String.eqb. cbv iota.
    by apply info_history_prefix.
  - intros [query Hquery].
    unfold dispatch. simpl String.eqb. cbv iota.
    unfold tool_search_municipal_codes, getitem. rewrite Hname, Hstate, Hquery.
    rewrite !bind_ret. simpl py_upper. rewrite !bind_ret. apply Hfirst.
Qed.

Lemma municipality_tools_start_alike_witness :
  (run norfolk_service [] (handle_call_tool "get_municipality_info" norfolk_va)).1
    `prefix_of`
  (run norfolk_service [] (handle_call_tool "get_code_structure" norfolk_va)).1.
Proof.
  apply (municipality_tools_start_alike norfolk_va norfolk_service
           (PStr "Norfolk") "va"); reflexivity.
Defined.

(** ** Schemas *)

(** X25. Every schema of the catalogue hangs together: each required
    parameter is declared, no parameter with a default is required, and each
    default has the type declared for its parameter. *)
Theorem catalogue_schemas_consistent tool :
  tool ∈ handle_list_tools → schema_consistent tool = true.
Proof.
  intros Hin. each_tool Hin; vm_compute; reflexivity.
Qed.

Lemma catalogue_schemas_consistent_witness :
  schema_consistent (tool_at 5) = true.
Proof.
  apply (catalogue_schemas_consistent (tool_at 5)).
  unfold tool_at, handle_list_tools. simpl nth.
  do 5 apply list_elem_of_further. apply list_elem_of_here.
Defined.

(** Reads a declared parameter off valid arguments. *)
Lemma valid_text_argument tool (arguments : gmap string pyval) key :
  schema_valid tool arguments →
  key ∈ schema_required tool →
  (∃ decl, (key, decl) ∈ schema_properties tool ∧ field decl "type" = PStr "string") →
  ∃ s, arguments !! key = Some (PStr s).
Proof.
  intros [Hreq Htypes] Hkey (decl & Hdecl & Htype).
  rewrite Forall_forall in Hreq. destruct (Hreq key Hkey) as [v Hv].
  rewrite Forall_forall in Htypes. specialize (Htypes (key, decl) Hdecl v Hv).
  simpl in Htypes. rewrite Htype in Htypes.
  destruct v; try discriminate. by eexists.
Qed.

Ltac in_declared :=
  repeat match goal with
    | |- context [schema_required ?t] =>
        let r := eval vm_compute in (schema_required t) in
        change (schema_required t) with r
    | |- context [schema_properties ?t] =>
        let r := eval vm_compute in (schema_properties t) in
        change (schema_properties t) with r
    end;
  solve [repeat first [apply list_elem_of_here|apply list_elem_of_further]].

(** X26. Arguments that satisfy the schema of a tool take the call to its
    first [client.get]: nothing is raised before it, and every tool but
    [get_municipality_url] hands the HTTP client a first request, whatever
    the client then makes of it. [get_municipality_url] returns its URL
    text, not an error. *)
Theorem valid_arguments_reach_the_client tool (arguments : gmap string pyval) w :
  tool ∈ handle_list_tools →
  schema_valid tool arguments →
  if String.eqb (Tool.name tool) "get_municipality_url"
  then ∃ t, run w [] (handle_call_tool (Tool.name tool) arguments) =
            ([], inr (text_result ("Municode Library URL for " +:+ t)))
  else ∃ r rest, (run w [] (handle_call_tool (Tool.name tool) arguments)).1 = r :: rest.
Proof.
  intros Hin Hvalid.
  assert (∀ key,
             key ∈ schema_required tool →
             (∃ decl, (key, decl) ∈ schema_properties tool ∧
                      field decl "type" = PStr "string") →
             ∃ s, arguments !! key = Some (PStr s)) as Htext
    by (intros key; by apply valid_text_argument).
  clear Hvalid.
  each_tool Hin;
    repeat match goal with
      | |- context [String.eqb (Tool.name ?t) _] =>
          let r := eval vm_compute in (Tool.name t) in
          change (Tool.name t) with r
      end;
    simpl String.eqb; cbv iota;
    try (destruct (Htext "municipality_name") as [m Hm];
         [in_declared|eexists; split; [in_declared|reflexivity]|]);
    (destruct (Htext "state_abbr") as [s Hs];
     [in_declared|eexists; split; [in_declared|reflexivity]|]);
    try (destruct (Htext "node_id") as [n Hn];
         [in_declared|eexists; split; [in_declared|reflexivity]|]);
    try (destruct (Htext "search_query") as [q Hq];
         [in_declared|eexists; split; [in_declared|reflexivity]|]);
    clear Htext.
  all: try (rewrite history_handle_call_tool; unfold dispatch; simpl String.eqb;
            cbv iota;
            unfold tool_get_states_info, tool_list_municipalities,
              tool_get_municipality_info, tool_get_code_structure,
              tool_get_code_section, tool_search_municipal_codes, getitem;
            rewrite ?Hm, ?Hs, ?Hn, ?Hq; rewrite ?bind_ret; simpl py_upper;
            rewrite ?bind_ret;
            unfold get_states, get_clients_by_state, get_client_by_name;
            cbv zeta;
            match goal with
            | |- context [bind (fetch ?url ?params) ?k] =>
                destruct (history_fetch_first w url params k) as [rest Hrest];
                by exists (Request url params), rest
            end).
  enter_tool. rewrite Hm, Hs. repeat run_more. eexists. reflexivity.
Qed.

Lemma valid_arguments_reach_the_client_witness :
  ∃ r rest,
    (run server_error [] (handle_call_tool "get_states_info" norfolk_va)).1 = r :: rest.
Proof.
  apply (valid_arguments_reach_the_client (tool_at 0) norfolk_va server_error).
  - unfold tool_at, handle_list_tools. simpl nth. apply list_elem_of_here.
  - split.
    + change (schema_required (tool_at 0)) with ["state_abbr"].
      repeat constructor. by eexists.
    + change (schema_properties (tool_at 0))
        with [("state_abbr",
               PDict [("type", PStr "string");
                      ("description",
                       PStr "Two-character US state abbreviation (e.g., 'VA', 'TX', 'CA')")])].
      repeat constructor. intros v [= <-]. reflexivity.
Defined.
